(** * Slide export drivers: [exportSlides.py] and [exportSlidesMacro.py]

    Both scripts drive a running office process through its UNO bridge:
    connect, load a presentation, ask every slide to export itself as a PNG,
    close the document.  All rendering is done by the office process, so the
    scripts are modelled as programs over an opaque host: every request sent
    over the bridge is recorded in a trace together with the answer the host
    gave, and the properties below are statements about the returned value
    and that trace. *)

From Stdlib Require Import String Ascii List ZArith Lia Bool DecimalString DecimalNat.
Import ListNotations.
Open Scope string_scope.

(* ================================================================= *)
(** ** Python values and exceptions *)

(** A remote object is known to the script only through an opaque handle. *)
Definition handle := nat.

(** The values the scripts handle: [None], [bool], [int], [str] and proxies
    of remote objects. *)
Inductive pyval : Type :=
| PNone
| PBool (b : bool)
| PInt (z : Z)
| PStr (s : string)
| PObj (h : handle).

(** A statement either completes with a value or raises an instance of
    Python's [Exception]; [msg] is [str(e)], the only thing the scripts ever
    read from an exception. *)
Inductive outcome (A : Type) : Type :=
| Ret (a : A)
| Raise (msg : string).
Arguments Ret {A} a.
Arguments Raise {A} msg.

Definition type_name (v : pyval) : string :=
  match v with
  | PNone => "NoneType"
  | PBool _ => "bool"
  | PInt _ => "int"
  | PStr _ => "str"
  | PObj _ => "pyuno"
  end.

(** Truth value testing, as used by [if not slides:]; a proxy of a remote
    object is true, like any object that defines neither [__bool__] nor
    [__len__]. *)
Definition truthy (v : pyval) : bool :=
  match v with
  | PNone => false
  | PBool b => b
  | PInt z => negb (z =? 0)%Z
  | PStr s => negb (s =? "")
  | PObj _ => true
  end.

(** [f"{n:03d}"]: decimal, padded with zeros to at least three digits. *)
Definition format_03d (n : nat) : string :=
  let s := NilEmpty.string_of_uint (Nat.to_uint n) in
  match String.length s with
  | 0 => "000"
  | 1 => "00" ++ s
  | 2 => "0" ++ s
  | _ => s
  end.

(** [f"slide_{i+1:03d}.png"] *)
Definition slide_file_name (i : nat) : string :=
  "slide_" ++ format_03d (i + 1) ++ ".png".

Definition ends_with_slash (s : string) : bool :=
  match s with
  | "" => false
  | _ => String.eqb (substring (String.length s - 1) 1 s) "/"
  end.

(** [os.path.join(a, b)] (POSIX flavour) for a second component that does not
    start with a slash, which is the only way the scripts call it. *)
Definition os_path_join (a b : string) : string :=
  if (a =? "") || ends_with_slash a then a ++ b else a ++ "/" ++ b.

(* ================================================================= *)
(** ** The UNO bridge *)

(** [com.sun.star.beans.PropertyValue], with the fields the scripts assign. *)
Record PropertyValue : Type := mkPropertyValue {
  Name : string;
  Value : pyval
}.

(** [PropertyValue()] *)
Definition PropertyValue_new : PropertyValue :=
  {| Name := ""; Value := PNone |}.
Definition set_Name (p : PropertyValue) (s : string) : PropertyValue :=
  {| Name := s; Value := Value p |}.
Definition set_Value (p : PropertyValue) (v : pyval) : PropertyValue :=
  {| Name := Name p; Value := v |}.

(** Arguments of a remote call: plain values, or a tuple of property values. *)
Inductive arg : Type :=
| AV (v : pyval)
| ATuple (ps : list PropertyValue).

(** A request sent over the bridge: reading an attribute of a remote object,
    or invoking one of its methods. *)
Inductive call : Type :=
| GetAttr (recv : handle) (name : string)
| Invoke (recv : handle) (meth : string) (args : list arg).

(** Everything outside the script.  The host is an oracle: its answer to a
    request depends on the request only. *)
Record Env : Type := mkEnv {
  (** [import m] / [from m import x], keyed by "m" / "m.x": the text of the
      exception it raises, if any *)
  import_error : string -> option string;
  (** [uno.getComponentContext()] *)
  uno_getComponentContext : outcome pyval;
  (** [uno.systemPathToFileUrl(path)] *)
  uno_systemPathToFileUrl : string -> outcome string;
  (** [os.path.abspath(path)], which depends on the working directory *)
  os_path_abspath : string -> string;
  (** the office process behind the bridge *)
  host : call -> outcome pyval
}.

Inductive stream : Type := Stdout | Stderr.

(** What a run leaves behind, in order. *)
Inductive event : Type :=
| EvCall (c : call) (r : outcome pyval)   (* a request and the host's answer *)
| EvPrint (f : stream) (text : string)    (* [print(text, file=f)] *)
| EvTraceback (msg : string).             (* the interpreter reporting an uncaught exception *)

Definition trace := list event.

(* ================================================================= *)
(** ** The monad of script fragments *)

Definition M (A : Type) : Type := Env -> trace * outcome A.

Definition ret {A} (a : A) : M A := fun _ => ([], Ret a).

Definition raise {A} (msg : string) : M A := fun _ => ([], Raise msg).

Definition bind {A B} (m : M A) (f : A -> M B) : M B :=
  fun env =>
    match m env with
    | (t1, Ret a) =>
        match f a env with
        | (t2, r) => ((t1 ++ t2)%list, r)
        end
    | (t1, Raise msg) => (t1, Raise msg)
    end.

Notation "x <- m ;; k" := (bind m (fun x => k))
  (at level 61, m at next level, right associativity).
Notation "m ;; k" := (bind m (fun _ => k))
  (at level 61, right associativity).

(** [try: body  except Exception as e: handler(str(e))] *)
Definition try_except {A} (body : M A) (handler : string -> M A) : M A :=
  fun env =>
    match body env with
    | (t1, Ret a) => (t1, Ret a)
    | (t1, Raise msg) =>
        match handler msg env with
        | (t2, r) => ((t1 ++ t2)%list, r)
        end
    end.

Definition lift {A} (f : Env -> outcome A) : M A := fun env => ([], f env).

Definition py_import (name : string) : M unit :=
  lift (fun env =>
          match import_error env name with
          | None => Ret tt
          | Some msg => Raise msg
          end).

Definition abspath (path : string) : M string :=
  lift (fun env => Ret (os_path_abspath env path)).

Definition remote (c : call) : M pyval :=
  fun env => ([EvCall c (host env c)], host env c).

Definition attribute_error {A} (v : pyval) (name : string) : M A :=
  raise ("'" ++ type_name v ++ "' object has no attribute '" ++ name ++ "'").

(** [v.name] *)
Definition getattr (v : pyval) (name : string) : M pyval :=
  match v with
  | PObj h => remote (GetAttr h name)
  | _ => attribute_error v name
  end.

(** [v.meth(args)] *)
Definition invoke (v : pyval) (meth : string) (args : list arg) : M pyval :=
  match v with
  | PObj h => remote (Invoke h meth args)
  | _ => attribute_error v meth
  end.

(** The integer a value stands for where Python wants one ([bool] is a
    subclass of [int]). *)
Definition py_index (v : pyval) : option Z :=
  match v with
  | PInt z => Some z
  | PBool b => Some (if b then 1%Z else 0%Z)
  | _ => None
  end.

(** [range(v)]: empty when [v] is zero or negative. *)
Definition py_range (v : pyval) : M (list nat) :=
  match py_index v with
  | Some z => ret (seq 0 (Z.to_nat z))
  | None => raise ("'" ++ type_name v ++ "' object cannot be interpreted as an integer")
  end.

(** [for x in xs: body(x)] *)
Fixpoint for_each {A} (xs : list A) (body : A -> M unit) : M unit :=
  match xs with
  | [] => ret tt
  | x :: xs' => body x ;; for_each xs' body
  end.

(** [print(text, file=f)] *)
Definition print (f : stream) (text : string) : M unit :=
  fun _ => ([EvPrint f text], Ret tt).

(** Running a script as a process: [Ret c] stands for [sys.exit(c)]; an
    exception that reaches the top level is reported by the interpreter, and
    the exit status is then 1. *)
Definition run_script (m : M Z) (env : Env) : trace * Z :=
  match m env with
  | (t, Ret c) => (t, c)
  | (t, Raise msg) => ((t ++ [EvTraceback msg])%list, 1%Z)
  end.

(* ================================================================= *)
(** ** [exportSlides.py] *)

Module exportSlides.

(** One pass of the loop body, lines 47-52. *)
Definition export_slide (pages : pyval) (output_dir : string) (i : nat) : M unit :=
  slide <- invoke pages "getByIndex" [AV (PInt (Z.of_nat i))] ;;
  let output_file := os_path_join output_dir (slide_file_name i) in
  p <- abspath output_file ;;
  output_url <- lift (fun env => uno_systemPathToFileUrl env p) ;;
  invoke slide "export" [AV (PStr output_url); AV (PStr "png")] ;;
  ret tt.

(** The [try] block, lines 13-56. *)
Definition export_body (input_file output_dir : string) : M bool :=
  py_import "uno" ;;
  py_import "com.sun.star.connection.NoConnectException" ;;
  py_import "com.sun.star.beans.PropertyValue" ;;
  localContext <- lift uno_getComponentContext ;;
  sm <- getattr localContext "ServiceManager" ;;
  resolver <- invoke sm "createInstanceWithContext"
                [AV (PStr "com.sun.star.bridge.UnoUrlResolver"); AV localContext] ;;
  ctx <- invoke resolver "resolve"
           [AV (PStr "uno:socket,host=localhost,port=2002;urp;StarOffice.ComponentContext")] ;;
  smgr <- getattr ctx "ServiceManager" ;;
  desktop <- invoke smgr "createInstanceWithContext"
               [AV (PStr "com.sun.star.frame.Desktop"); AV ctx] ;;
  p <- abspath input_file ;;
  url <- lift (fun env => uno_systemPathToFileUrl env p) ;;
  let props := [] in
  let prop := PropertyValue_new in
  let prop := set_Name prop "Hidden" in
  let prop := set_Value prop (PBool true) in
  let props := (props ++ [prop])%list in
  document <- invoke desktop "loadComponentFromURL"
                [AV (PStr url); AV (PStr "_blank"); AV (PInt 0); ATuple props] ;;
  presentation <- invoke document "getPresentation" [] ;;
  pages <- invoke presentation "getSlides" [] ;;
  count <- invoke pages "getCount" [] ;;
  indices <- py_range count ;;
  for_each indices (export_slide pages output_dir) ;;
  invoke document "close" [AV (PBool true)] ;;
  ret true.

Definition export_slides_to_png (input_file output_dir : string) : M bool :=
  try_except (export_body input_file output_dir)
    (fun e => print Stderr ("Error: " ++ e) ;; ret false).

(** The module as a script: the imports at the top of the file (line 8 is
    the one that can fail), then the [__main__] block. *)
Definition main (argv : list string) : M Z :=
  py_import "com.sun.star.beans.PropertyValue" ;;
  if negb (length argv =? 3)%nat then
    print Stderr "Usage: python exportSlides.py <input_pptx> <output_dir>" ;;
    ret 1%Z
  else
    let input_file := nth 1 argv "" in
    let output_dir := nth 2 argv "" in
    ok <- export_slides_to_png input_file output_dir ;;
    if ok then ret 0%Z else ret 1%Z.

End exportSlides.

(* ================================================================= *)
(** ** [exportSlidesMacro.py] *)

Module exportSlidesMacro.

(** One pass of the loop body, lines 51-56. *)
Definition export_slide (pres : pyval) (output_dir : string) (i : nat) : M unit :=
  slides <- invoke pres "getSlides" [] ;;
  slide <- invoke slides "getByIndex" [AV (PInt (Z.of_nat i))] ;;
  let output_file := os_path_join output_dir (slide_file_name i) in
  p <- abspath output_file ;;
  output_file_url <- lift (fun env => uno_systemPathToFileUrl env p) ;;
  invoke slide "export" [AV (PStr output_file_url); AV (PStr "png")] ;;
  ret tt.

(** The [try] block, lines 13-59. *)
Definition export_body (input_file output_dir : string) : M bool :=
  py_import "uno" ;;
  py_import "com.sun.star.beans.PropertyValue" ;;
  localContext <- lift uno_getComponentContext ;;
  sm <- getattr localContext "ServiceManager" ;;
  resolver <- invoke sm "createInstanceWithContext"
                [AV (PStr "com.sun.star.bridge.UnoUrlResolver"); AV localContext] ;;
  ctx <- invoke resolver "resolve"
           [AV (PStr "uno:socket,host=localhost,port=2002;urp;StarOffice.ComponentContext")] ;;
  smgr <- getattr ctx "ServiceManager" ;;
  desktop <- invoke smgr "createInstanceWithContext"
               [AV (PStr "com.sun.star.frame.Desktop"); AV ctx] ;;
  p <- abspath input_file ;;
  input_url <- lift (fun env => uno_systemPathToFileUrl env p) ;;
  q <- abspath output_dir ;;
  output_url <- lift (fun env => uno_systemPathToFileUrl env q) ;;
  doc <- invoke desktop "loadComponentFromURL"
           [AV (PStr input_url); AV (PStr "_blank"); AV (PInt 0); ATuple []] ;;
  controller <- invoke doc "getCurrentController" [] ;;
  slides <- invoke controller "getSlideShowController" [] ;;
  (if negb (truthy slides) then
     presSupplier <- invoke doc "getPresentationSupplier" [] ;;
     pres <- invoke presSupplier "getPresentation" [] ;;
     pages <- invoke pres "getSlides" [] ;;
     pageCount <- invoke pages "getCount" [] ;;
     indices <- py_range pageCount ;;
     for_each indices (export_slide pres output_dir)
   else ret tt) ;;
  invoke doc "close" [AV (PBool true)] ;;
  ret true.

Definition export_slides (input_file output_dir : string) : M bool :=
  try_except (export_body input_file output_dir)
    (fun e => print Stderr ("Error: " ++ e) ;; ret false).

(** The [__main__] block; this file imports only [sys] and [os] at its top. *)
Definition main (argv : list string) : M Z :=
  if negb (length argv =? 3)%nat then
    print Stderr "Usage: python exportSlidesMacro.py <input_pptx> <output_dir>" ;;
    ret 1%Z
  else
    let input_file := nth 1 argv "" in
    let output_dir := nth 2 argv "" in
    ok <- export_slides input_file output_dir ;;
    if ok then ret 0%Z else ret 1%Z.

End exportSlidesMacro.

(* ================================================================= *)
(** ** The two scripts side by side *)

Inductive script : Type := ExportSlides | ExportSlidesMacro.

Definition export_body_of (s : script) : string -> string -> M bool :=
  match s with
  | ExportSlides => exportSlides.export_body
  | ExportSlidesMacro => exportSlidesMacro.export_body
  end.

Definition export_function (s : script) : string -> string -> M bool :=
  match s with
  | ExportSlides => exportSlides.export_slides_to_png
  | ExportSlidesMacro => exportSlidesMacro.export_slides
  end.

Definition main_of (s : script) : list string -> M Z :=
  match s with
  | ExportSlides => exportSlides.main
  | ExportSlidesMacro => exportSlidesMacro.main
  end.

(* ================================================================= *)
(** ** Reading a trace *)

(** The requests sent to the host, in order. *)
Definition request_of (e : event) : list call :=
  match e with
  | EvCall c _ => [c]
  | _ => []
  end.
Definition requests (t : trace) : list call := flat_map request_of t.

Definition method_of (c : call) : string :=
  match c with
  | GetAttr _ name => name
  | Invoke _ meth _ => meth
  end.

(** Whether some request of the trace names [meth]. *)
Definition mentions (meth : string) (t : trace) : bool :=
  existsb (fun c => method_of c =? meth) (requests t).

(** The slide exports the host carried out: the slide and the URL it was
    asked to write, PNG filter only. *)
Definition export_of (e : event) : list (handle * string) :=
  match e with
  | EvCall (Invoke slide meth args) r =>
      if meth =? "export" then
        match r, args with
        | Ret _, [AV (PStr url); AV (PStr filter)] =>
            if filter =? "png" then [(slide, url)] else []
        | _, _ => []
        end
      else []
  | _ => []
  end.
Definition exports (t : trace) : list (handle * string) := flat_map export_of t.

(** The output files a run leaves on disk: the host writes one file per
    export it carries out, and nothing in a trace removes a file. *)
Definition files_written (t : trace) : list string := map snd (exports t).

(** What was printed, and where; of the interpreter's report of an uncaught
    exception only the text of the exception is kept. *)
Definition print_of (e : event) : list (stream * string) :=
  match e with
  | EvPrint f text => [(f, text)]
  | EvTraceback msg => [(Stderr, msg)]
  | EvCall _ _ => []
  end.
Definition printed (t : trace) : list (stream * string) := flat_map print_of t.

(** The line breaks inside a text. *)
Fixpoint line_breaks (s : string) : nat :=
  match s with
  | EmptyString => 0
  | String c s' => (if Ascii.eqb c "010" then 1 else 0) + line_breaks s'
  end.

(** The lines a run puts on its streams: [print] ends its text with a line
    break, so each message takes one line more than its text has line
    breaks. *)
Definition lines_printed (t : trace) : nat :=
  list_sum (map (fun p => 1 + line_breaks (snd p)) (printed t)).

Definition is_load (c : call) : bool := method_of c =? "loadComponentFromURL".
Definition is_close (c : call) : bool := method_of c =? "close".

(** The methods of [XStorable] and [XStorable2]. *)
Definition is_store (c : call) : bool :=
  existsb (String.eqb (method_of c)) ["store"; "storeAsURL"; "storeToURL"; "storeSelf"].

Definition pyval_eqb (a b : pyval) : bool :=
  match a, b with
  | PNone, PNone => true
  | PBool x, PBool y => Bool.eqb x y
  | PInt x, PInt y => (x =? y)%Z
  | PStr x, PStr y => x =? y
  | PObj x, PObj y => (x =? y)%nat
  | _, _ => false
  end.

(** The media descriptor of a request: the property tuples among its
    arguments. *)
Definition properties_of (c : call) : list PropertyValue :=
  match c with
  | GetAttr _ _ => []
  | Invoke _ _ args =>
      flat_map (fun a => match a with ATuple ps => ps | AV _ => [] end) args
  end.

Definition has_property (name : string) (c : call) : bool :=
  existsb (fun p => Name p =? name) (properties_of c).

Definition has_property_value (name : string) (v : pyval) (c : call) : bool :=
  existsb (fun p => (Name p =? name) && pyval_eqb (Value p) v) (properties_of c).

(** The frame a load request targets: its second argument. *)
Definition target_of (c : call) : option string :=
  match c with
  | Invoke _ _ (_ :: AV (PStr target) :: _) => Some target
  | _ => None
  end.

(** The URL the [i]-th pass of either loop asks its slide to write
    ([i] counts from 0). *)
Definition output_url (env : Env) (output_dir : string) (i : nat) : outcome string :=
  uno_systemPathToFileUrl env
    (os_path_abspath env (os_path_join output_dir (slide_file_name i))).

(* ================================================================= *)
(** ** Vocabulary of the properties *)

(** The answers the host gave to the requests for method [meth]: the object
    asked and what it answered. *)
Definition answer_of (meth : string) (e : event) : list (handle * pyval) :=
  match e with
  | EvCall (Invoke h m _) (Ret v) => if m =? meth then [(h, v)] else []
  | _ => []
  end.
Definition answers (meth : string) (t : trace) : list (handle * pyval) :=
  flat_map (answer_of meth) t.

(** Whether the lookup of the slide show controller was answered with
    something truthy, which is what [if not slides:] tests. *)
Definition slide_show_found (t : trace) : bool :=
  existsb (fun x => truthy (snd x)) (answers "getSlideShowController" t).

(** Pass [i] of the export loop went through: [fst x] is what
    [getByIndex(i)] answered on [pages], [snd x] is the URL of
    [slide_{i+1:03d}.png] under [output_dir], and the host carried out the
    export of that slide to that URL. *)
Definition exported (env : Env) (pages : handle) (output_dir : string)
    (i : nat) (x : handle * string) : Prop :=
  host env (Invoke pages "getByIndex" [AV (PInt (Z.of_nat i))]) = Ret (PObj (fst x)) /\
  output_url env output_dir i = Ret (snd x) /\
  exists r, host env (Invoke (fst x) "export" [AV (PStr (snd x)); AV (PStr "png")]) = Ret r.

(** The methods the two loops call. *)
Definition loop_methods : list string := ["getSlides"; "getByIndex"; "export"].
Definition loop_method (c : call) : bool :=
  existsb (String.eqb (method_of c)) loop_methods.

(** A load that did not produce a document: the host raised, or answered
    [None]. *)
Definition load_failed (r : outcome pyval) : Prop :=
  match r with
  | Raise _ => True
  | Ret v => v = PNone
  end.

(** The host cannot load [input_file], whoever asks and with whatever
    further arguments. *)
Definition load_fails (env : Env) (input_file : string) : Prop :=
  forall desktop url rest,
    uno_systemPathToFileUrl env (os_path_abspath env input_file) = Ret url ->
    load_failed (host env (Invoke desktop "loadComponentFromURL" (AV (PStr url) :: rest))).

Definition exit_status (s : script) (argv : list string) (env : Env) : Z :=
  snd (run_script (main_of s argv) env).

Definition hidden_property : PropertyValue := {| Name := "Hidden"; Value := PBool true |}.

(** The property tuple each script passes to [loadComponentFromURL]. *)
Definition load_properties (s : script) : list PropertyValue :=
  match s with
  | ExportSlides => [hidden_property]
  | ExportSlidesMacro => []
  end.

(** A load request as the specification describes it: hidden, into a new
    top-level frame, with no filter chosen. *)
Definition loads_hidden (c : call) : bool :=
  match target_of c with
  | Some target => target =? "_blank"
  | None => false
  end
  && has_property_value "Hidden" (PBool true) c
  && negb (has_property "FilterName" c).


(** What a property of requests says of an event. *)
Definition on_call (Q : call -> Prop) (e : event) : Prop :=
  match e with
  | EvCall c _ => Q c
  | _ => True
  end.


(** The usage line of each script. *)
Definition usage (s : script) : string :=
  match s with
  | ExportSlides => "Usage: python exportSlides.py <input_pptx> <output_dir>"
  | ExportSlidesMacro => "Usage: python exportSlidesMacro.py <input_pptx> <output_dir>"
  end.

(** Every event of every run of [m] satisfies [P]. *)
Definition always (P : event -> Prop) {A} (m : M A) : Prop :=
  forall env, Forall P (fst (m env)).

(** No failing request goes unnoticed: if the host answered a request of [m]
    by raising, then [m] raises that very exception. *)
Definition propagates {A} (m : M A) : Prop :=
  forall env c msg,
    In (EvCall c (Raise msg)) (fst (m env)) -> snd (m env) = Raise msg.

(* ================================================================= *)
(** ** Vocabulary of the further properties *)

(** The methods a trace asks for, in order. *)
Definition methods (t : trace) : list string := map method_of (requests t).

(** The connection and the load, common to both scripts. *)
Definition connect_methods : list string :=
  ["ServiceManager"; "createInstanceWithContext"; "resolve";
   "ServiceManager"; "createInstanceWithContext"; "loadComponentFromURL"].

(** From the loaded document to the slide count. *)
Definition enumerate_methods (s : script) : list string :=
  match s with
  | ExportSlides => ["getPresentation"; "getSlides"; "getCount"]
  | ExportSlidesMacro =>
      ["getCurrentController"; "getSlideShowController";
       "getPresentationSupplier"; "getPresentation"; "getSlides"; "getCount"]
  end.

(** One pass of the loop. *)
Definition pass_methods (s : script) : list string :=
  match s with
  | ExportSlides => ["getByIndex"; "export"]
  | ExportSlidesMacro => ["getSlides"; "getByIndex"; "export"]
  end.

(** A complete run over [n] slides. *)
Definition per_slide_session (s : script) (n : nat) : list string :=
  (connect_methods ++ enumerate_methods s ++ concat (repeat (pass_methods s) n) ++ ["close"])%list.

(** A complete run of the macro when a slide show controller is found. *)
Definition slide_show_session : list string :=
  (connect_methods ++ ["getCurrentController"; "getSlideShowController"; "close"])%list.

Definition complete_session (s : script) (ms : list string) : Prop :=
  (exists n, ms = per_slide_session s n) \/
  (s = ExportSlidesMacro /\ ms = slide_show_session).

(** How many requests of a trace name [meth]. *)
Definition times (meth : string) (t : trace) : nat :=
  length (filter (String.eqb meth) (methods t)).

(** A request the host answers by raising ends the fragment at once: it is
    the last event of the fragment, which raises the same exception. *)
Definition fails_fast {A} (m : M A) : Prop :=
  forall env c msg,
    In (EvCall c (Raise msg)) (fst (m env)) ->
    snd (m env) = Raise msg /\
    exists pre, fst (m env) = (pre ++ [EvCall c (Raise msg)])%list.

(** An export request as the loops issue it: for some pass [i], on the slide
    [getByIndex(i)] answered, to the URL of [slide_{i+1:03d}.png] under the
    output directory, as PNG. *)
Definition export_request (env : Env) (output_dir : string) (c : call) : Prop :=
  exists pages slide i url,
    host env (Invoke pages "getByIndex" [AV (PInt (Z.of_nat i))]) = Ret (PObj slide) /\
    output_url env output_dir i = Ret url /\
    c = Invoke slide "export" [AV (PStr url); AV (PStr "png")].

(** The fixed endpoint and the two services the scripts ask for. *)
Definition connection_request (c : call) : Prop :=
  match c with
  | GetAttr _ name => name = "ServiceManager"
  | Invoke _ meth args =>
      (meth = "resolve" ->
       args = [AV (PStr "uno:socket,host=localhost,port=2002;urp;StarOffice.ComponentContext")]) /\
      (meth = "createInstanceWithContext" ->
       exists ctx, args = [AV (PStr "com.sun.star.bridge.UnoUrlResolver"); AV ctx] \/
                   args = [AV (PStr "com.sun.star.frame.Desktop"); AV ctx])
  end.

(** Different slides have different output URLs on this host. *)
Definition urls_distinct (env : Env) (output_dir : string) : Prop :=
  forall i j url,
    output_url env output_dir i = Ret url ->
    output_url env output_dir j = Ret url ->
    i = j.

(** The first method each script calls on the loaded document. *)
Definition first_document_method (s : script) : string :=
  match s with
  | ExportSlides => "getPresentation"
  | ExportSlidesMacro => "getCurrentController"
  end.

(* ================================================================= *)
(** ** A small office to run the scripts against

    One presentation exists, at [deck]; everything else the scripts ask for
    is answered the way a running office answers it. *)

Record office : Type := mkOffice {
  importable : bool;          (* whether the [com.sun.star] modules can be imported *)
  deck : string;              (* absolute path of the presentation that exists *)
  slide_count : Z;            (* its number of slides *)
  slide_show : pyval;         (* the answer to [getSlideShowController()] *)
  broken_slide : option nat;  (* index of a slide whose export fails *)
  close_vetoed : bool         (* whether [close] raises *)
}.

Definition h_context : handle := 1.
Definition h_local_manager : handle := 2.
Definition h_resolver : handle := 3.
Definition h_remote_context : handle := 4.
Definition h_remote_manager : handle := 5.
Definition h_desktop : handle := 6.
Definition h_document : handle := 7.
Definition h_presentation : handle := 8.
Definition h_pages : handle := 9.
Definition h_controller : handle := 10.
Definition h_slide (i : nat) : handle := 100 + i.

Definition on (h : handle) (meth : string) (h' : handle) (meth' : string) : bool :=
  (meth =? meth') && (h =? h')%nat.

Definition office_host (o : office) (c : call) : outcome pyval :=
  match c with
  | GetAttr h name =>
      if on h name h_context "ServiceManager" then Ret (PObj h_local_manager)
      else if on h name h_remote_context "ServiceManager" then Ret (PObj h_remote_manager)
      else Raise ("no attribute " ++ name)
  | Invoke h meth args =>
      if on h meth h_local_manager "createInstanceWithContext" then Ret (PObj h_resolver)
      else if on h meth h_resolver "resolve" then Ret (PObj h_remote_context)
      else if on h meth h_remote_manager "createInstanceWithContext" then Ret (PObj h_desktop)
      else if on h meth h_desktop "loadComponentFromURL" then
        match args with
        | AV (PStr url) :: _ =>
            if url =? "file://" ++ deck o then Ret (PObj h_document)
            else Raise ("Unsupported URL <" ++ url ++ ">")
        | _ => Raise "IllegalArgumentException"
        end
      else if on h meth h_document "getPresentation" then Ret (PObj h_presentation)
      else if on h meth h_document "getCurrentController" then Ret (PObj h_controller)
      else if on h meth h_document "getPresentationSupplier" then Ret (PObj h_document)
      else if on h meth h_document "close" then
        if close_vetoed o then Raise "CloseVetoException" else Ret PNone
      else if on h meth h_controller "getSlideShowController" then Ret (slide_show o)
      else if on h meth h_presentation "getSlides" then Ret (PObj h_pages)
      else if on h meth h_pages "getCount" then Ret (PInt (slide_count o))
      else if on h meth h_pages "getByIndex" then
        match args with
        | [AV (PInt i)] =>
            if (0 <=? i)%Z && (i <? slide_count o)%Z
            then Ret (PObj (h_slide (Z.to_nat i)))
            else Raise "IndexOutOfBoundsException"
        | _ => Raise "IllegalArgumentException"
        end
      else if (meth =? "export") && (100 <=? h)%nat then
        match broken_slide o with
        | Some i => if (h =? h_slide i)%nat then Raise "export failed" else Ret PNone
        | None => Ret PNone
        end
      else Raise ("no method " ++ meth)
  end.

Definition office_env (o : office) : Env :=
  {| import_error := fun name =>
       if importable o || (name =? "uno") then None
       else Some "No module named 'com'";
     uno_getComponentContext := Ret (PObj h_context);
     uno_systemPathToFileUrl := fun path => Ret ("file://" ++ path);
     os_path_abspath := fun path =>
       if prefix "/" path then path else "/srv/" ++ path;
     host := office_host o |}.

(** The same environment, except that requests for [meth] on object [h] are
    answered by [r]. *)
Definition answering (env : Env) (h : handle) (meth : string) (r : outcome pyval) : Env :=
  {| import_error := import_error env;
     uno_getComponentContext := uno_getComponentContext env;
     uno_systemPathToFileUrl := uno_systemPathToFileUrl env;
     os_path_abspath := os_path_abspath env;
     host := fun c =>
       match c with
       | Invoke h' m _ => if (m =? meth) && (h' =? h)%nat then r else host env c
       | GetAttr _ _ => host env c
       end |}.

(** A healthy office holding a deck of [n] slides. *)
Definition deck_of (n : Z) : office :=
  {| importable := true; deck := "/srv/deck.pptx"; slide_count := n;
     slide_show := PNone; broken_slide := None; close_vetoed := false |}.

(** The same, with a slide show controller present. *)
Definition presenting (n : Z) : office :=
  {| importable := true; deck := "/srv/deck.pptx"; slide_count := n;
     slide_show := PObj 11; broken_slide := None; close_vetoed := false |}.

(** The same as [deck_of], with slide [i] (from 0) refusing to export. *)
Definition with_broken_slide (n : Z) (i : nat) : office :=
  {| importable := true; deck := "/srv/deck.pptx"; slide_count := n;
     slide_show := PNone; broken_slide := Some i; close_vetoed := false |}.


(** An interpreter in which the [com.sun.star] modules cannot be imported. *)
Definition no_uno_modules : office :=
  {| importable := false; deck := "/srv/deck.pptx"; slide_count := 2;
     slide_show := PNone; broken_slide := None; close_vetoed := false |}.

(** A healthy office whose desktop refuses every load with an exception
    whose text has two lines. *)
Definition refusing_in_two_lines : Env :=
  answering (office_env (deck_of 2)) h_desktop "loadComponentFromURL"
    (Raise ("IllegalArgumentException: Unsupported URL" ++ String "010" "  at the desktop")).

(* ================================================================= *)
(** * Properties *)

Open Scope list_scope.
Local Arguments String.append : simpl never.

(** ** Traces *)

Lemma requests_app (t1 t2 : trace) : requests (t1 ++ t2) = requests t1 ++ requests t2.
Proof. apply flat_map_app. Qed.

Lemma exports_app (t1 t2 : trace) : exports (t1 ++ t2) = exports t1 ++ exports t2.
Proof. apply flat_map_app. Qed.

Lemma printed_app (t1 t2 : trace) : printed (t1 ++ t2) = printed t1 ++ printed t2.
Proof. apply flat_map_app. Qed.




Lemma on_call_requests (Q : call -> Prop) (t : trace) :
  Forall (on_call Q) t -> Forall Q (requests t).
Proof.
  unfold requests. induction t as [|e t IH]; intros H; cbn [flat_map]; [constructor|].
  inversion H as [|? ? He Ht]; subst. apply Forall_app. split; auto.
  destruct e; cbn in *; auto.
Qed.

Lemma answered (t : trace) (h : handle) (meth : string) (args : list arg) (v : pyval) :
  In (EvCall (Invoke h meth args) (Ret v)) t -> In (h, v) (answers meth t).
Proof.
  unfold answers. intros H. apply in_flat_map.
  eexists. split; [exact H|]. cbn. rewrite String.eqb_refl. now left.
Qed.

Lemma answers_none (meth : string) (t : trace) :
  Forall (fun c => (method_of c =? meth) = false) (requests t) -> answers meth t = [].
Proof.
  unfold answers, requests.
  induction t as [|e t IH]; intros H; [reflexivity|].
  cbn [flat_map] in *. apply Forall_app in H as [Hc Ht]. rewrite (IH Ht), app_nil_r.
  destruct e as [[h name|h m args] [v|msg]| |]; try reflexivity.
  cbn in Hc. inversion Hc as [|? ? Heq]; subst. cbn in *. now rewrite Heq.
Qed.

Lemma mentions_none (meth : string) (t : trace) :
  Forall (fun c => (method_of c =? meth) = false) (requests t) -> mentions meth t = false.
Proof.
  unfold mentions. induction (requests t) as [|c cs IH]; cbn; auto.
  intros H. inversion H as [|? ? Hc Hcs]; subst. now rewrite Hc, IH.
Qed.

Lemma exports_none (t : trace) :
  Forall (fun c => (method_of c =? "export") = false) (requests t) -> exports t = [].
Proof.
  unfold exports, requests.
  induction t as [|e t IH]; intros H; [reflexivity|].
  cbn [flat_map] in *. apply Forall_app in H as [Hc Ht]. rewrite (IH Ht), app_nil_r.
  destruct e as [[h name|h meth args] r| |]; try reflexivity.
  cbn in Hc. inversion Hc as [|? ? Heq]; subst. cbn in *. now rewrite Heq.
Qed.

Lemma files_of_exports (env : Env) (pages : handle) (o : string) (idx : list nat)
    (xs : list (handle * string)) :
  Forall2 (exported env pages o) idx xs ->
  Forall2 (fun i url => output_url env o i = Ret url) idx (map snd xs).
Proof.
  induction 1 as [|i x idx xs Hx _ IH]; cbn; constructor; auto.
  apply Hx.
Qed.

(** ** What every event of a run satisfies *)

Section Always.

Variable P : event -> Prop.

Lemma always_ret {A} (a : A) : always P (ret a).
Proof. intro env. constructor. Qed.

Lemma always_raise {A} (msg : string) : always P (@raise A msg).
Proof. intro env. constructor. Qed.

Lemma always_lift {A} (f : Env -> outcome A) : always P (lift f).
Proof. intro env. constructor. Qed.

Lemma always_print (f : stream) (text : string) : P (EvPrint f text) -> always P (print f text).
Proof. intros H env. cbn. now repeat constructor. Qed.

Lemma always_remote (c : call) : (forall r, P (EvCall c r)) -> always P (remote c).
Proof. intros H env. cbn. now repeat constructor. Qed.

Lemma always_getattr (v : pyval) (name : string) :
  (forall h r, P (EvCall (GetAttr h name) r)) -> always P (getattr v name).
Proof. intros H. destruct v; cbn; try apply always_raise. now apply always_remote. Qed.

Lemma always_invoke (v : pyval) (meth : string) (args : list arg) :
  (forall h r, P (EvCall (Invoke h meth args) r)) -> always P (invoke v meth args).
Proof. intros H. destruct v; cbn; try apply always_raise. now apply always_remote. Qed.

Lemma always_py_range (v : pyval) : always P (py_range v).
Proof. unfold py_range. destruct (py_index v); [apply always_ret | apply always_raise]. Qed.

Lemma always_bind {A B} (m : M A) (f : A -> M B) :
  always P m -> (forall a, always P (f a)) -> always P (bind m f).
Proof.
  intros Hm Hf env. unfold bind.
  specialize (Hm env). destruct (m env) as [t1 [a|msg]]; cbn in *; auto.
  specialize (Hf a env). destruct (f a env) as [t2 r]; cbn in *.
  apply Forall_app; auto.
Qed.

Lemma always_try_except {A} (m : M A) (h : string -> M A) :
  always P m -> (forall msg, always P (h msg)) -> always P (try_except m h).
Proof.
  intros Hm Hh env. unfold try_except.
  specialize (Hm env). destruct (m env) as [t1 [a|msg]]; cbn in *; auto.
  specialize (Hh msg env). destruct (h msg env) as [t2 r]; cbn in *.
  apply Forall_app; auto.
Qed.

Lemma always_for_each {A} (xs : list A) (body : A -> M unit) :
  (forall x, always P (body x)) -> always P (for_each xs body).
Proof.
  intros H. induction xs as [|x xs IH]; cbn [for_each].
  - apply always_ret.
  - apply always_bind; auto.
Qed.

Lemma always_if {A} (b : bool) (m1 m2 : M A) :
  always P m1 -> always P m2 -> always P (if b then m1 else m2).
Proof. now destruct b. Qed.
End Always.

(** Walks through a script applying the rules above; [side] settles the
    condition each request or print has to meet. *)
Ltac always_rules side :=
  repeat first
    [ apply always_bind; [|intro]
    | apply always_try_except; [|intro]
    | apply always_for_each; intro
    | apply always_if
    | apply always_ret
    | apply always_lift
    | apply always_py_range
    | apply always_print; side
    | apply always_getattr; intros ? ?; side
    | apply always_invoke; intros ? ?; side ].

Ltac unfold_functions :=
  unfold export_function, export_body_of,
    exportSlides.export_slides_to_png, exportSlides.export_body, exportSlides.export_slide,
    exportSlidesMacro.export_slides, exportSlidesMacro.export_body,
    exportSlidesMacro.export_slide, abspath, py_import.

(** ** Running a script step by step *)

Lemma bind_run {A B} (m : M A) (f : A -> M B) (env : Env) :
  bind m f env =
  match m env with
  | (t1, Ret a) => match f a env with (t2, r) => (t1 ++ t2, r) end
  | (t1, Raise msg) => (t1, Raise msg)
  end.
Proof. reflexivity. Qed.

Ltac run_cbn H := cbn -[for_each String.append seq Z.to_nat] in H.

(** One step of the run recorded in [H]: case analysis on the answer to the
    first request that is still open. *)
Ltac run_step H :=
  match type of H with
  | context [import_error ?e ?n] => destruct (import_error e n) eqn:?
  | context [uno_getComponentContext ?e] => destruct (uno_getComponentContext e) eqn:?
  | context [uno_systemPathToFileUrl ?e ?p] => destruct (uno_systemPathToFileUrl e p) eqn:?
  | context [getattr ?v _] => is_var v; destruct v
  | context [invoke ?v _ _] => is_var v; destruct v
  | context [py_range ?v] => unfold py_range in H; destruct (py_index v) eqn:?
  | context [truthy ?v] => destruct (truthy v) eqn:?
  | context [host ?e ?c] => destruct (host e c) eqn:?
  | context [bind (for_each ?xs ?b) ?f ?e] =>
      rewrite (bind_run (for_each xs b) f e) in H;
      let tl := fresh "tl" in
      let Hloop := fresh "Hloop" in
      destruct (for_each xs b e) as [tl [[]|?]] eqn:Hloop
  | context [for_each ?xs ?b ?e] =>
      let tl := fresh "tl" in
      let Hloop := fresh "Hloop" in
      destruct (for_each xs b e) as [tl [[]|?]] eqn:Hloop
  | context [bind (bind ?m ?k) ?f ?e] =>
      rewrite (bind_run (bind m k) f e), (bind_run m k e) in H
  end; run_cbn H.

Ltac unfold_scripts H :=
  unfold export_function, export_body_of, main_of,
    exportSlides.main, exportSlidesMacro.main,
    exportSlides.export_slides_to_png, exportSlides.export_body,
    exportSlidesMacro.export_slides, exportSlidesMacro.export_body,
    try_except, abspath, py_import in H.

Ltac run H := unfold_scripts H; run_cbn H; repeat run_step H.

(** ** The export loops *)

Lemma loop_requests (s : script) (pages : pyval) (o : string) (idx : list nat) (env : Env) :
  Forall (fun c => loop_method c = true)
    (requests (fst (for_each idx
       match s with
       | ExportSlides => exportSlides.export_slide pages o
       | ExportSlidesMacro => exportSlidesMacro.export_slide pages o
       end env))).
Proof.
  apply on_call_requests. revert env.
  apply always_for_each. intro i.
  destruct s; unfold_functions; always_rules reflexivity.
Qed.

Lemma loop_method_other (c : call) (meth : string) :
  loop_method c = true ->
  existsb (String.eqb meth) loop_methods = false ->
  (method_of c =? meth) = false.
Proof.
  unfold loop_method. intros H Hm.
  apply existsb_exists in H. destruct H as (m & Hin & Heq).
  apply String.eqb_eq in Heq. rewrite Heq.
  destruct (String.eqb_spec m meth) as [->|]; [|reflexivity].
  assert (Hex : existsb (String.eqb meth) loop_methods = true).
  { apply existsb_exists. exists meth. split; [exact Hin | apply String.eqb_refl]. }
  congruence.
Qed.

(** What the loops leave alone: they ask for no method other than their
    three, so they neither close nor store. *)
Lemma loop_quiet (s : script) (pages : pyval) (o : string) (idx : list nat) (env : Env)
    (t : trace) (r : outcome unit) :
  for_each idx
     match s with
     | ExportSlides => exportSlides.export_slide pages o
     | ExportSlidesMacro => exportSlidesMacro.export_slide pages o
     end env = (t, r) ->
  (forall meth, existsb (String.eqb meth) loop_methods = false ->
                answers meth t = [] /\ mentions meth t = false) /\
  Forall (fun c => is_close c = false /\ is_store c = false) (requests t).
Proof.
  intros H. pose proof (loop_requests s pages o idx env) as Hreq. rewrite H in Hreq. cbn in Hreq.
  split.
  - intros meth Hm.
    assert (Hnone : Forall (fun c => (method_of c =? meth) = false) (requests t)).
    { eapply Forall_impl; [|exact Hreq]. intros c Hc. now apply loop_method_other. }
    split; [now apply answers_none | now apply mentions_none].
  - eapply Forall_impl; [|exact Hreq].
    intros c Hc. unfold is_close, is_store. cbn [existsb].
    rewrite !(loop_method_other c _ Hc) by reflexivity. auto.
Qed.

(** The loop of [exportSlides.py], pass by pass: it prints nothing, and the
    exports it got through are those of the first [k] indices, in order;
    it completes exactly when [k] is the number of indices. *)
Lemma export_loop (env : Env) (pages : handle) (o : string) (n : nat) :
  forall s t r,
    for_each (seq s n) (exportSlides.export_slide (PObj pages) o) env = (t, r) ->
    printed t = [] /\
    exists k, Forall2 (exported env pages o) (seq s k) (exports t) /\
              match r with Ret _ => k = n | Raise _ => (k < n)%nat end.
Proof.
  induction n as [|n IH]; intros s t r H; cbn [seq for_each] in H.
  - injection H as <- <-. split; [reflexivity|]. exists 0. split; constructor.
  - rewrite bind_run in H. unfold exportSlides.export_slide at 1 in H.
    unfold abspath in H. run_cbn H.
    assert (Hfail : forall t0, printed t0 = [] -> exports t0 = [] ->
              printed t0 = [] /\
              exists k, Forall2 (exported env pages o) (seq s k) (exports t0) /\ (k < S n)%nat).
    { intros t0 Hp He. split; auto. exists 0. rewrite He. split; [constructor|lia]. }
    repeat run_step H; injection H as <- <-; try (now apply Hfail).
    all: destruct (IH _ _ _ Hloop) as (Hp & k & Hk & Hr);
      (split; [exact Hp|]); exists (S k); (split; [|lia]);
      cbn; unfold exports in Hk; (constructor; [|exact Hk]);
      repeat split; cbn; eauto.
Qed.

(** A pass of the macro's loop is a [getSlides()] request followed by a pass
    of the other loop. *)
Lemma macro_pass (env : Env) (pres pages : handle) (o : string) (i : nat) :
  host env (Invoke pres "getSlides" []) = Ret (PObj pages) ->
  exportSlidesMacro.export_slide (PObj pres) o i env =
  (EvCall (Invoke pres "getSlides" []) (Ret (PObj pages))
     :: fst (exportSlides.export_slide (PObj pages) o i env),
   snd (exportSlides.export_slide (PObj pages) o i env)).
Proof.
  intros H. unfold exportSlidesMacro.export_slide. rewrite bind_run.
  cbn [invoke remote]. rewrite H.
  change (exportSlides.export_slide (PObj pages) o i) with
    (slide <- invoke (PObj pages) "getByIndex" [AV (PInt (Z.of_nat i))] ;;
     p <- abspath (os_path_join o (slide_file_name i)) ;;
     output_url <- lift (fun env => uno_systemPathToFileUrl env p) ;;
     invoke slide "export" [AV (PStr output_url); AV (PStr "png")] ;;
     ret tt).
  match goal with |- context [match ?x with (t2, r) => _ end] => destruct x as [t2 r] end.
  reflexivity.
Qed.

Lemma loops_agree (env : Env) (pres pages : handle) (o : string) (idx : list nat) :
  host env (Invoke pres "getSlides" []) = Ret (PObj pages) ->
  snd (for_each idx (exportSlidesMacro.export_slide (PObj pres) o) env)
  = snd (for_each idx (exportSlides.export_slide (PObj pages) o) env) /\
  exports (fst (for_each idx (exportSlidesMacro.export_slide (PObj pres) o) env))
  = exports (fst (for_each idx (exportSlides.export_slide (PObj pages) o) env)) /\
  printed (fst (for_each idx (exportSlidesMacro.export_slide (PObj pres) o) env))
  = printed (fst (for_each idx (exportSlides.export_slide (PObj pages) o) env)).
Proof.
  intros H. induction idx as [|i idx IH]; cbn [for_each]; [auto|].
  rewrite !bind_run, (macro_pass env pres pages o i H).
  destruct (exportSlides.export_slide (PObj pages) o i env) as [t1 [[]|msg]]; cbn [fst snd]; auto.
  destruct IH as (IHr & IHe & IHp).
  destruct (for_each idx (exportSlidesMacro.export_slide (PObj pres) o) env) as [tm rm].
  destruct (for_each idx (exportSlides.export_slide (PObj pages) o) env) as [te re].
  cbn [fst snd] in *. subst rm.
  change (EvCall (Invoke pres "getSlides" []) (Ret (PObj pages)) :: t1)
    with ([EvCall (Invoke pres "getSlides" []) (Ret (PObj pages))] ++ t1).
  rewrite !exports_app, !printed_app, IHe, IHp. auto.
Qed.

(** The loop of [exportSlidesMacro.py], to the same effect. *)
Lemma macro_loop (env : Env) (pres pages : handle) (o : string) (n s : nat)
    (t : trace) (r : outcome unit) :
  host env (Invoke pres "getSlides" []) = Ret (PObj pages) ->
  for_each (seq s n) (exportSlidesMacro.export_slide (PObj pres) o) env = (t, r) ->
  printed t = [] /\
  exists k, Forall2 (exported env pages o) (seq s k) (exports t) /\
            match r with Ret _ => k = n | Raise _ => (k < n)%nat end.
Proof.
  intros H Hrun. destruct (loops_agree env pres pages o (seq s n) H) as (Hr & He & Hp).
  rewrite Hrun in Hr, He, Hp. cbn [fst snd] in Hr, He, Hp.
  destruct (for_each (seq s n) (exportSlides.export_slide (PObj pages) o) env) as [te re] eqn:Hte.
  cbn [fst snd] in Hr, He, Hp. subst re.
  rewrite He, Hp. exact (export_loop env pages o n s te r Hte).
Qed.

(** ** The scripts as processes *)

Lemma export_function_total (s : script) (i o : string) (env : Env) :
  exists b, snd (export_function s i o env) = Ret b.
Proof.
  destruct s; cbn [export_function];
    unfold exportSlides.export_slides_to_png, exportSlidesMacro.export_slides, try_except.
  - destruct (exportSlides.export_body i o env) as [t [b|msg]]; cbn; eauto.
  - destruct (exportSlidesMacro.export_body i o env) as [t [b|msg]]; cbn; eauto.
Qed.

(** With two arguments given, the process is the export function and its
    verdict; [exportSlides.py] first has to get past its own line 8. *)
Lemma main_runs_export (s : script) (env : Env) (prog i o : string) :
  run_script (main_of s [prog; i; o]) env =
  match s, import_error env "com.sun.star.beans.PropertyValue" with
  | ExportSlides, Some msg => ([EvTraceback msg], 1%Z)
  | _, _ =>
      (fst (export_function s i o env),
       match snd (export_function s i o env) with
       | Ret true => 0%Z
       | _ => 1%Z
       end)
  end.
Proof.
  destruct (export_function_total s i o env) as [b Hb].
  destruct s; cbn [main_of export_function] in *;
    unfold exportSlides.main, exportSlidesMacro.main, run_script, py_import, bind, lift;
    cbn [length Nat.eqb negb nth].
  - destruct (import_error env "com.sun.star.beans.PropertyValue"); [reflexivity|].
    destruct (exportSlides.export_slides_to_png i o env) as [t r]. cbn in Hb. subst r.
    destruct b; cbn; now rewrite app_nil_r.
  - destruct (exportSlidesMacro.export_slides i o env) as [t r]. cbn in Hb. subst r.
    destruct b, (import_error env "com.sun.star.beans.PropertyValue"); cbn; now rewrite app_nil_r.
Qed.

Lemma exit_status_of_failure (s : script) (env : Env) (prog i o : string) :
  snd (export_function s i o env) = Ret false ->
  exit_status s [prog; i; o] env = 1%Z.
Proof.
  intros H. unfold exit_status. rewrite main_runs_export, H.
  destruct s, (import_error env "com.sun.star.beans.PropertyValue"); reflexivity.
Qed.

Lemma main_files (s : script) (env : Env) (prog i o : string) :
  files_written (fst (export_function s i o env)) = [] ->
  files_written (fst (run_script (main_of s [prog; i; o]) env)) = [].
Proof.
  intros H. rewrite main_runs_export.
  destruct s, (import_error env "com.sun.star.beans.PropertyValue"); auto.
Qed.

(** ** Failures *)

(** The [try] blocks never print. *)
Lemma export_body_silent (s : script) (i o : string) (env : Env) :
  printed (fst (export_body_of s i o env)) = [].
Proof.
  assert (H : Forall (fun e => print_of e = []) (fst (export_body_of s i o env))).
  { revert env. destruct s; unfold_functions; always_rules reflexivity. }
  unfold printed. induction H as [|e t He _ IH]; cbn; [reflexivity|].
  now rewrite He, IH.
Qed.

Lemma export_function_run (s : script) (i o : string) (env : Env) :
  export_function s i o env =
  match export_body_of s i o env with
  | (t, Ret b) => (t, Ret b)
  | (t, Raise msg) => (t ++ [EvPrint Stderr ("Error: " ++ msg)%string], Ret false)
  end.
Proof.
  destruct s; cbn [export_function export_body_of];
    unfold exportSlides.export_slides_to_png, exportSlidesMacro.export_slides, try_except;
    match goal with |- context [match ?x with _ => _ end] => destruct x as [t [b|msg]] end;
    reflexivity.
Qed.

(** Requests answered by raising are never swallowed. *)

Lemma propagates_quiet {A} (m : M A) :
  (forall env, fst (m env) = []) -> propagates m.
Proof. intros H env c msg Hin. rewrite H in Hin. destruct Hin. Qed.

Lemma propagates_remote (c : call) : propagates (remote c).
Proof.
  intros env c' msg [H|[]]. cbn in *. injection H as _ H. exact H.
Qed.

Lemma propagates_getattr (v : pyval) (name : string) : propagates (getattr v name).
Proof.
  destruct v; cbn; try (now apply propagates_quiet). apply propagates_remote.
Qed.

Lemma propagates_invoke (v : pyval) (meth : string) (args : list arg) :
  propagates (invoke v meth args).
Proof.
  destruct v; cbn; try (now apply propagates_quiet). apply propagates_remote.
Qed.

Lemma propagates_bind {A B} (m : M A) (f : A -> M B) :
  propagates m -> (forall a, propagates (f a)) -> propagates (bind m f).
Proof.
  intros Hm Hf env c msg. unfold bind.
  specialize (Hm env c msg).
  destruct (m env) as [t1 [a|msg1]]; cbn [fst snd] in *.
  - specialize (Hf a env c msg). destruct (f a env) as [t2 r]; cbn [fst snd] in *.
    intros Hin. apply in_app_or in Hin as [Hin|Hin]; auto.
    discriminate (Hm Hin).
  - intros Hin. specialize (Hm Hin). injection Hm as ->. reflexivity.
Qed.

Lemma propagates_for_each {A} (xs : list A) (body : A -> M unit) :
  (forall x, propagates (body x)) -> propagates (for_each xs body).
Proof.
  intros H. induction xs as [|x xs IH]; cbn [for_each].
  - now apply propagates_quiet.
  - apply propagates_bind; auto.
Qed.

Lemma propagates_if {A} (b : bool) (m1 m2 : M A) :
  propagates m1 -> propagates m2 -> propagates (if b then m1 else m2).
Proof. now destruct b. Qed.

Ltac propagates_rules :=
  repeat first
    [ apply propagates_bind; [|intro]
    | apply propagates_for_each; intro
    | apply propagates_if
    | apply propagates_getattr
    | apply propagates_invoke
    | apply propagates_quiet; intro; unfold py_range;
      try match goal with |- context [py_index ?v] => destruct (py_index v) end;
      reflexivity ].

Lemma export_body_propagates (s : script) (i o : string) : propagates (export_body_of s i o).
Proof. destruct s; unfold_functions; propagates_rules. Qed.

Lemma failed_request_in_body (s : script) (i o : string) (env : Env) (c : call) (msg : string) :
  In (EvCall c (Raise msg)) (fst (export_function s i o env)) ->
  In (EvCall c (Raise msg)) (fst (export_body_of s i o env)).
Proof.
  rewrite export_function_run.
  destruct (export_body_of s i o env) as [t [b|msg']]; cbn [fst]; auto.
  intros H. apply in_app_or in H as [H|[H|[]]]; [exact H | discriminate H].
Qed.

(** C4, as amended.  Whatever raises inside the export function -- an
    import, the connection, the load, the enumeration, an export, the close
    -- is caught: the function prints one message on the error stream,
    "Error: " followed by the text of the exception, and returns false, and
    the process exits with status 1.  The message takes one line when the
    text of the exception has no line break, and one line more for every
    line break in it.  This holds whether the exception is read off the
    [try] block's outcome or off a request that the host answered by
    raising. *)
Theorem exception_reported (s : script) (env : Env) (prog input_file output_dir msg : string) :
  snd (export_body_of s input_file output_dir env) = Raise msg \/
  (exists c, In (EvCall c (Raise msg)) (fst (export_function s input_file output_dir env))) ->
  export_function s input_file output_dir env
  = (fst (export_body_of s input_file output_dir env)
       ++ [EvPrint Stderr ("Error: " ++ msg)%string], Ret false) /\
  printed (fst (export_function s input_file output_dir env))
  = [(Stderr, ("Error: " ++ msg)%string)] /\
  lines_printed (fst (export_function s input_file output_dir env)) = 1 + line_breaks msg /\
  exit_status s [prog; input_file; output_dir] env = 1%Z.
Proof.
  intros H.
  assert (Hbody : snd (export_body_of s input_file output_dir env) = Raise msg).
  { destruct H as [H|[c H]]; [exact H|].
    apply failed_request_in_body in H. now apply export_body_propagates in H. }
  clear H.
  assert (Hrun : export_function s input_file output_dir env
                 = (fst (export_body_of s input_file output_dir env)
                      ++ [EvPrint Stderr ("Error: " ++ msg)%string], Ret false)).
  { rewrite export_function_run.
    destruct (export_body_of s input_file output_dir env) as [t r]. cbn in *. now subst r. }
  assert (Hprinted : printed (fst (export_function s input_file output_dir env))
                     = [(Stderr, ("Error: " ++ msg)%string)]).
  { rewrite Hrun. cbn [fst]. rewrite printed_app, export_body_silent. reflexivity. }
  split; [exact Hrun|]. split; [exact Hprinted|]. split.
  - unfold lines_printed. rewrite Hprinted. cbn [map list_sum fold_right snd].
    change (line_breaks ("Error: " ++ msg)) with (line_breaks msg). lia.
  - apply exit_status_of_failure. now rewrite Hrun.
Qed.

Lemma exception_reported_witness :
  (exists c, In (EvCall c (Raise "export failed"))
               (fst (export_function ExportSlides "deck.pptx" "out"
                       (office_env (with_broken_slide 3 1))))) /\
  printed (fst (export_function ExportSlides "deck.pptx" "out"
                  (office_env (with_broken_slide 3 1))))
  = [(Stderr, "Error: export failed"%string)] /\
  lines_printed (fst (export_function ExportSlides "deck.pptx" "out"
                        (office_env (with_broken_slide 3 1)))) = 1 /\
  exit_status ExportSlides ["exportSlides.py"; "deck.pptx"; "out"]
    (office_env (with_broken_slide 3 1)) = 1%Z.
Proof.
  assert (H : exists c, In (EvCall c (Raise "export failed"))
               (fst (export_function ExportSlides "deck.pptx" "out"
                       (office_env (with_broken_slide 3 1))))).
  { eexists. vm_compute. do 12 right. left. reflexivity. }
  split; [exact H|].
  exact (proj2 (exception_reported ExportSlides (office_env (with_broken_slide 3 1))
                  "exportSlides.py" "deck.pptx" "out" "export failed" (or_intror H))).
Defined.

(** C4 as stated fails when the text of the exception has a line break.  The
    desktop refuses the load with a text of two lines: the function returns
    false and prints one message, and that message takes two lines of the
    error stream. *)
Lemma error_message_of_two_lines :
  host refusing_in_two_lines
    (Invoke h_desktop "loadComponentFromURL"
       [AV (PStr "file:///srv/deck.pptx"); AV (PStr "_blank"); AV (PInt 0);
        ATuple [hidden_property]])
  = Raise ("IllegalArgumentException: Unsupported URL" ++ String "010" "  at the desktop") /\
  snd (export_function ExportSlides "deck.pptx" "out" refusing_in_two_lines) = Ret false /\
  printed (fst (export_function ExportSlides "deck.pptx" "out" refusing_in_two_lines))
  = [(Stderr, ("Error: IllegalArgumentException: Unsupported URL"
                 ++ String "010" "  at the desktop")%string)] /\
  lines_printed (fst (export_function ExportSlides "deck.pptx" "out" refusing_in_two_lines))
  = 2.
Proof. vm_compute. repeat split. Qed.

(** ** A document that cannot be loaded *)

Ltac leaf H := injection H as <- <-.

(** C5.  When the host cannot load the input file -- it raises, or hands back
    no document -- the export function returns false, the process exits with
    status 1, and no output file is written: the run never asks for a slide
    and never asks for an export. *)
Theorem failed_load_writes_nothing (s : script) (env : Env)
    (prog input_file output_dir : string) :
  load_fails env input_file ->
  snd (export_function s input_file output_dir env) = Ret false /\
  files_written (fst (export_function s input_file output_dir env)) = [] /\
  mentions "getByIndex" (fst (export_function s input_file output_dir env)) = false /\
  mentions "export" (fst (export_function s input_file output_dir env)) = false /\
  exit_status s [prog; input_file; output_dir] env = 1%Z /\
  files_written (fst (run_script (main_of s [prog; input_file; output_dir]) env)) = [].
Proof.
  intros Hload.
  assert (H : snd (export_function s input_file output_dir env) = Ret false /\
              files_written (fst (export_function s input_file output_dir env)) = [] /\
              mentions "getByIndex" (fst (export_function s input_file output_dir env)) = false /\
              mentions "export" (fst (export_function s input_file output_dir env)) = false).
  { unfold load_fails in Hload.
    destruct (export_function s input_file output_dir env) as [t r] eqn:Hrun.
    destruct s; run Hrun; try (leaf Hrun; cbn; now auto).
    all: exfalso;
      match goal with
      | Hurl : uno_systemPathToFileUrl _ _ = Ret ?u,
        Hl : host _ (Invoke ?d "loadComponentFromURL" (_ :: ?rest)) = _ |- _ =>
          specialize (Hload d u rest eq_refl); rewrite Hl in Hload; discriminate Hload
      end. }
  destruct H as (Hr & Hf & Hg & He).
  repeat split; auto.
  - now apply exit_status_of_failure.
  - now apply main_files.
Qed.

Lemma failed_load_writes_nothing_witness :
  load_fails (office_env (deck_of 2)) "missing.pptx" /\
  files_written (fst (run_script (main_of ExportSlidesMacro
                                    ["exportSlidesMacro.py"; "missing.pptx"; "out"])
                        (office_env (deck_of 2)))) = [] /\
  exit_status ExportSlidesMacro ["exportSlidesMacro.py"; "missing.pptx"; "out"]
    (office_env (deck_of 2)) = 1%Z.
Proof.
  assert (H : load_fails (office_env (deck_of 2)) "missing.pptx").
  { intros desktop url rest Hurl. injection Hurl as <-.
    cbn. unfold on. cbn. destruct (desktop =? h_desktop)%nat; exact I. }
  split; [exact H|].
  pose proof (failed_load_writes_nothing ExportSlidesMacro (office_env (deck_of 2))
                "exportSlidesMacro.py" "missing.pptx" "out" H) as (_ & _ & _ & _ & Hs & Hf).
  split; [exact Hf | exact Hs].
Defined.

(** ** Successful runs *)

Lemma cons_snoc {A} (a : A) (l pre : list A) (c : A) :
  l = pre ++ [c] -> a :: l = (a :: pre) ++ [c].
Proof. intros ->. reflexivity. Qed.

Ltac split_last :=
  repeat first
    [ reflexivity
    | exact (eq_refl : [_] = [] ++ [_])
    | eapply cons_snoc ].

Ltac find_event := cbn [In]; repeat first [ left; reflexivity | right ].

(** A run that returns true ends with [close(True)] on the document the
    load returned, and that close returned normally; nothing before it is a
    close, and nothing is a store, so the document goes away unsaved.
    Whatever slide count the host reported, that many exports were carried
    out before the close, one per slide and in document order.  The count was
    asked for in every such run of [exportSlides.py], and in every such run
    of [exportSlidesMacro.py] in which no slide show controller was found. *)
Theorem document_closed_last (s : script) (env : Env) (input_file output_dir : string) :
  snd (export_function s input_file output_dir env) = Ret true ->
  exists pre desktop args doc r,
    fst (export_function s input_file output_dir env)
    = pre ++ [EvCall (Invoke doc "close" [AV (PBool true)]) (Ret r)] /\
    In (EvCall (Invoke desktop "loadComponentFromURL" args) (Ret (PObj doc))) pre /\
    Forall (fun c => is_close c = false /\ is_store c = false) (requests pre) /\
    (forall pages count,
        In (EvCall (Invoke pages "getCount" []) (Ret count)) pre ->
        exists n, py_index count = Some n /\
                  Forall2 (exported env pages output_dir) (seq 0 (Z.to_nat n)) (exports pre) /\
                  length (files_written pre) = Z.to_nat n) /\
    (s = ExportSlides \/ slide_show_found pre = false ->
     exists pages count, In (EvCall (Invoke pages "getCount" []) (Ret count)) pre).
Proof.
  intros Hok.
  destruct (export_function s input_file output_dir env) as [t r] eqn:Hrun.
  cbn [fst snd] in *.
  destruct s; run Hrun; try (leaf Hrun; try discriminate Hok).
  - (* exportSlides.py *)
    destruct (loop_quiet ExportSlides _ _ _ _ _ _ Hloop) as (Hquiet & Hplain).
    destruct (Hquiet "getCount" eq_refl) as (Hcount & _).
    destruct (export_loop _ _ _ _ _ _ _ Hloop) as (_ & k & Hk & ->).
    do 5 eexists. split; [split_last|]. split; [find_event|]. split; [|split].
    + unfold requests in *. cbn [flat_map request_of app].
      repeat (constructor; [split; reflexivity|]). exact Hplain.
    + intros pages count Hin. apply answered in Hin.
      unfold answers in *. cbn in Hin. rewrite Hcount in Hin.
      destruct Hin as [Hin|[]]. injection Hin as <- <-. eexists. split; [eassumption|].
      unfold files_written, exports in *. cbn. split; [exact Hk|].
      rewrite length_map. apply Forall2_length in Hk. now rewrite length_seq in Hk.
    + intros _. do 2 eexists. find_event.
  - (* exportSlidesMacro.py, slide show controller present *)
    do 5 eexists. split; [split_last|]. split; [find_event|]. split; [|split].
    + unfold requests. cbn [flat_map request_of app].
      repeat (constructor; [split; reflexivity|]). constructor.
    + intros pages count Hin. apply answered in Hin. cbn in Hin. destruct Hin.
    + intros [Hs|Hs]; [discriminate Hs|].
      unfold slide_show_found in Hs. cbn -[truthy] in Hs. rewrite Heqb in Hs. discriminate Hs.
  - (* exportSlidesMacro.py, per-slide path *)
    destruct (loop_quiet ExportSlidesMacro _ _ _ _ _ _ Hloop) as (Hquiet & Hplain).
    destruct (Hquiet "getCount" eq_refl) as (Hcount & _).
    destruct (macro_loop _ _ _ _ _ _ _ _ ltac:(eassumption) Hloop) as (_ & k & Hk & ->).
    do 5 eexists. split; [split_last|]. split; [find_event|]. split; [|split].
    + unfold requests in *. cbn [flat_map request_of app].
      repeat (constructor; [split; reflexivity|]). exact Hplain.
    + intros pages count Hin. apply answered in Hin.
      unfold answers in *. cbn in Hin. rewrite Hcount in Hin.
      destruct Hin as [Hin|[]]. injection Hin as <- <-. eexists. split; [eassumption|].
      unfold files_written, exports in *. cbn. split; [exact Hk|].
      rewrite length_map. apply Forall2_length in Hk. now rewrite length_seq in Hk.
    + intros _. do 2 eexists. find_event.
Qed.

Lemma document_closed_last_witness :
  snd (export_function ExportSlidesMacro "deck.pptx" "out" (office_env (deck_of 2)))
  = Ret true /\
  exists pre,
    fst (export_function ExportSlidesMacro "deck.pptx" "out" (office_env (deck_of 2)))
    = pre ++ [EvCall (Invoke h_document "close" [AV (PBool true)]) (Ret PNone)] /\
    slide_show_found pre = false /\
    In (EvCall (Invoke h_pages "getCount" []) (Ret (PInt 2))) pre /\
    Forall2 (exported (office_env (deck_of 2)) h_pages "out") (seq 0 2) (exports pre).
Proof.
  assert (H : snd (export_function ExportSlidesMacro "deck.pptx" "out"
                     (office_env (deck_of 2))) = Ret true) by (vm_compute; reflexivity).
  split; [exact H|].
  destruct (document_closed_last ExportSlidesMacro (office_env (deck_of 2)) "deck.pptx" "out" H)
    as (pre & desktop & args & doc & r & Ht & _ & _ & Hall & Hcount).
  assert (Hpre : pre = removelast (fst (export_function ExportSlidesMacro "deck.pptx" "out"
                                          (office_env (deck_of 2))))).
  { rewrite Ht. now rewrite removelast_last. }
  assert (Hlast : EvCall (Invoke doc "close" [AV (PBool true)]) (Ret r)
                  = EvCall (Invoke h_document "close" [AV (PBool true)]) (Ret PNone)).
  { apply (f_equal (fun t => last t (EvPrint Stdout ""))) in Ht.
    rewrite last_last in Ht. rewrite <- Ht. vm_compute. reflexivity. }
  exists pre. rewrite Ht, Hlast. split; [reflexivity|].
  assert (Hnone : slide_show_found pre = false) by (rewrite Hpre; vm_compute; reflexivity).
  split; [exact Hnone|].
  assert (Hin : In (EvCall (Invoke h_pages "getCount" []) (Ret (PInt 2))) pre).
  { rewrite Hpre. vm_compute. do 11 right. left. reflexivity. }
  split; [exact Hin|].
  destruct (Hall h_pages (PInt 2) Hin) as (n & Hn & Hx & _).
  injection Hn as <-. exact Hx.
Defined.

(** ** A loop cut short *)




(** ** Every slide, in order *)

(** A run that returns true after asking for the slide count carried out
    exactly one export per slide, in document order: the [k]-th export is
    that of the slide [getByIndex(k-1)] answered, to the URL of
    [slide_{k:03d}.png] under the output directory. *)
Lemma run_exports (s : script) (env : Env) (i o : string) (pages : handle) (count : pyval) :
  snd (export_function s i o env) = Ret true ->
  In (pages, count) (answers "getCount" (fst (export_function s i o env))) ->
  exists n, py_index count = Some n /\
            Forall2 (exported env pages o) (seq 0 (Z.to_nat n))
              (exports (fst (export_function s i o env))).
Proof.
  intros Hok Hin.
  destruct (export_function s i o env) as [t r] eqn:Hrun.
  cbn [fst snd] in *.
  destruct s; run Hrun; try (leaf Hrun; try discriminate Hok).
  all: try (cbn in Hin; contradiction).
  all: match goal with
       | Hl : for_each _ (exportSlides.export_slide _ _) _ = _ |- _ =>
           destruct (loop_quiet ExportSlides _ _ _ _ _ _ Hl) as (Hquiet & _);
           destruct (export_loop _ _ _ _ _ _ _ Hl) as (_ & k & Hk & ->)
       | Hs : host _ (Invoke _ "getSlides" []) = Ret (PObj _),
         Hl : for_each _ (exportSlidesMacro.export_slide _ _) _ = _ |- _ =>
           destruct (loop_quiet ExportSlidesMacro _ _ _ _ _ _ Hl) as (Hquiet & _);
           destruct (macro_loop _ _ _ _ _ _ _ _ Hs Hl) as (_ & k & Hk & ->)
       end;
       destruct (Hquiet "getCount" eq_refl) as (Hcount & _).
  all: unfold answers, exports in *;
    cbn in Hin; rewrite ?flat_map_app in Hin; rewrite ?Hcount in Hin; cbn in Hin;
    destruct Hin as [Hin|[]]; injection Hin as <- <-;
    eexists; (split; [eassumption|]);
    cbn; rewrite ?flat_map_app; cbn; now rewrite app_nil_r.
Qed.

(** ** The slide show controller branch of the macro *)





(** ** The two export functions compared *)








(** ** The load request *)

(** C2, as amended.  Every load request of [exportSlides.py] is
    [loadComponentFromURL(url, "_blank", 0, (Hidden=True,))], and every load
    request of [exportSlidesMacro.py] is
    [loadComponentFromURL(url, "_blank", 0, ())]: both target a new top-level
    frame and choose no filter, but only the first asks for a hidden
    document. *)
Theorem load_requests (s : script) (env : Env) (input_file output_dir : string) :
  Forall (fun c => is_load c = true ->
            exists desktop url,
              c = Invoke desktop "loadComponentFromURL"
                    [AV (PStr url); AV (PStr "_blank"); AV (PInt 0);
                     ATuple (load_properties s)])
    (requests (fst (export_function s input_file output_dir env))).
Proof.
  apply on_call_requests. revert env.
  destruct s; cbn [load_properties]; unfold_functions;
    always_rules ltac:(first [ exact I
                             | intro H; discriminate H
                             | intros _; eexists; eexists; reflexivity ]).
Qed.

(** C2 as stated fails for [exportSlidesMacro.py]: its load request carries
    no [Hidden] property. *)
Lemma macro_load_not_hidden :
  exists c,
    In c (requests (fst (export_function ExportSlidesMacro "deck.pptx" "out"
                           (office_env (deck_of 2))))) /\
    is_load c = true /\ loads_hidden c = false.
Proof.
  exists (Invoke h_desktop "loadComponentFromURL"
            [AV (PStr "file:///srv/deck.pptx"); AV (PStr "_blank"); AV (PInt 0); ATuple []]).
  vm_compute. repeat split. do 5 right. left. reflexivity.
Qed.

(** ** Nothing is saved *)



(** ** Where the code falls short *)

(** C3 at its failing input.  The presentation has two slides and a slide
    show controller is present: [export_slides] returns true and has written
    no file at all, where [export_slides_to_png] writes both. *)
Theorem presenting_deck_exports_nothing :
  host (office_env (presenting 2)) (Invoke h_pages "getCount" []) = Ret (PInt 2) /\
  exportSlidesMacro.export_slides "deck.pptx" "out" (office_env (presenting 2))
  = ([EvCall (GetAttr h_context "ServiceManager") (Ret (PObj h_local_manager));
      EvCall (Invoke h_local_manager "createInstanceWithContext"
                [AV (PStr "com.sun.star.bridge.UnoUrlResolver"); AV (PObj h_context)])
             (Ret (PObj h_resolver));
      EvCall (Invoke h_resolver "resolve"
                [AV (PStr "uno:socket,host=localhost,port=2002;urp;StarOffice.ComponentContext")])
             (Ret (PObj h_remote_context));
      EvCall (GetAttr h_remote_context "ServiceManager") (Ret (PObj h_remote_manager));
      EvCall (Invoke h_remote_manager "createInstanceWithContext"
                [AV (PStr "com.sun.star.frame.Desktop"); AV (PObj h_remote_context)])
             (Ret (PObj h_desktop));
      EvCall (Invoke h_desktop "loadComponentFromURL"
                [AV (PStr "file:///srv/deck.pptx"); AV (PStr "_blank"); AV (PInt 0); ATuple []])
             (Ret (PObj h_document));
      EvCall (Invoke h_document "getCurrentController" []) (Ret (PObj h_controller));
      EvCall (Invoke h_controller "getSlideShowController" []) (Ret (PObj 11));
      EvCall (Invoke h_document "close" [AV (PBool true)]) (Ret PNone)],
     Ret true) /\
  files_written (fst (exportSlidesMacro.export_slides "deck.pptx" "out"
                        (office_env (presenting 2)))) = [] /\
  files_written (fst (exportSlides.export_slides_to_png "deck.pptx" "out"
                        (office_env (presenting 2))))
  = ["file:///srv/out/slide_001.png"; "file:///srv/out/slide_002.png"]%string.
Proof. vm_compute. repeat split. Qed.

(** C7 at its failing input.  The presentation has two slides and a slide
    show controller is present: [export_slides] returns true and its last
    request closes the document, but no export comes before that close, where
    [export_slides_to_png] closes the document after the exports of both
    slides.  The defect is the one C3 shows. *)
Theorem closed_before_any_export :
  host (office_env (presenting 2)) (Invoke h_pages "getCount" []) = Ret (PInt 2) /\
  snd (exportSlidesMacro.export_slides "deck.pptx" "out" (office_env (presenting 2)))
  = Ret true /\
  (exists pre,
      fst (exportSlidesMacro.export_slides "deck.pptx" "out" (office_env (presenting 2)))
      = pre ++ [EvCall (Invoke h_document "close" [AV (PBool true)]) (Ret PNone)] /\
      mentions "export" pre = false /\
      exports pre = []) /\
  (exists pre,
      fst (exportSlides.export_slides_to_png "deck.pptx" "out" (office_env (presenting 2)))
      = pre ++ [EvCall (Invoke h_document "close" [AV (PBool true)]) (Ret PNone)] /\
      exports pre = [(h_slide 0, "file:///srv/out/slide_001.png"%string);
                     (h_slide 1, "file:///srv/out/slide_002.png"%string)]).
Proof.
  split; [reflexivity|]. split; [vm_compute; reflexivity|].
  split; eexists; (split; [vm_compute; split_last|]); vm_compute; auto.
Qed.

(** C8 at its failing input.  Started with no argument in an interpreter
    where [com.sun.star.beans] cannot be imported at the top of the module,
    [exportSlides.py] dies on its line 8: a traceback is printed instead of
    the usage message (the exit status is 1 all the same), while
    [exportSlidesMacro.py], which has no such import, prints its usage. *)
Theorem usage_lost_without_uno_modules :
  run_script (exportSlides.main ["exportSlides.py"]) (office_env no_uno_modules)
  = ([EvTraceback "No module named 'com'"], 1%Z) /\
  run_script (exportSlidesMacro.main ["exportSlidesMacro.py"]) (office_env no_uno_modules)
  = ([EvPrint Stderr "Usage: python exportSlidesMacro.py <input_pptx> <output_dir>"], 1%Z).
Proof. vm_compute. split; reflexivity. Qed.

(** ** Further properties *)

(** Once the module is loaded, a wrong number of arguments gets the usage
    message on the error stream and exit status 1, and nothing else happens:
    no request reaches the host. *)
Theorem wrong_argument_count (s : script) (env : Env) (argv : list string) :
  length argv <> 3 ->
  (s = ExportSlides -> import_error env "com.sun.star.beans.PropertyValue" = None) ->
  run_script (main_of s argv) env = ([EvPrint Stderr (usage s)], 1%Z).
Proof.
  intros Hlen Himp. apply Nat.eqb_neq in Hlen.
  destruct s; cbn [main_of usage];
    unfold exportSlides.main, exportSlidesMacro.main, run_script, py_import, bind, lift.
  - rewrite (Himp eq_refl), Hlen. reflexivity.
  - rewrite Hlen. reflexivity.
Qed.

Lemma wrong_argument_count_witness :
  run_script (main_of ExportSlides ["exportSlides.py"; "deck.pptx"]) (office_env (deck_of 2))
  = ([EvPrint Stderr (usage ExportSlides)], 1%Z).
Proof.
  apply (wrong_argument_count ExportSlides (office_env (deck_of 2))
           ["exportSlides.py"; "deck.pptx"]).
  - cbn. lia.
  - reflexivity.
Defined.

(** Whatever the interpreter, a wrong number of arguments ends in exit
    status 1 without a single request to the host and without any file
    written. *)
Theorem bad_argv_is_harmless (s : script) (env : Env) (argv : list string) :
  length argv <> 3 ->
  exit_status s argv env = 1%Z /\
  requests (fst (run_script (main_of s argv) env)) = [] /\
  files_written (fst (run_script (main_of s argv) env)) = [].
Proof.
  intros Hlen. apply Nat.eqb_neq in Hlen.
  destruct s; unfold exit_status; cbn [main_of];
    unfold exportSlides.main, exportSlidesMacro.main, run_script, py_import, bind, lift;
    rewrite Hlen; cbn [negb].
  - destruct (import_error env "com.sun.star.beans.PropertyValue"); cbn; auto.
  - cbn; auto.
Qed.

Lemma bad_argv_is_harmless_witness :
  exit_status ExportSlides [] (office_env no_uno_modules) = 1%Z /\
  requests (fst (run_script (main_of ExportSlides []) (office_env no_uno_modules))) = [] /\
  files_written (fst (run_script (main_of ExportSlides []) (office_env no_uno_modules))) = [].
Proof.
  apply (bad_argv_is_harmless ExportSlides (office_env no_uno_modules) []).
  cbn. lia.
Defined.

(** A run of either script that returns true after asking for the slide
    count has written exactly that many files, one per slide and in document
    order: the [k]-th is the export of the slide [getByIndex(k-1)] answered,
    to the URL of [slide_{k:03d}.png] under the output directory. *)
Theorem all_slides_exported (s : script) (env : Env) (input_file output_dir : string)
    (pages : handle) (count : pyval) :
  snd (export_function s input_file output_dir env) = Ret true ->
  In (EvCall (Invoke pages "getCount" []) (Ret count))
     (fst (export_function s input_file output_dir env)) ->
  exists n,
    py_index count = Some n /\
    Forall2 (exported env pages output_dir) (seq 0 (Z.to_nat n))
      (exports (fst (export_function s input_file output_dir env))) /\
    length (files_written (fst (export_function s input_file output_dir env))) = Z.to_nat n.
Proof.
  intros Hok Hin. apply answered in Hin.
  destruct (run_exports s env input_file output_dir pages count Hok Hin) as (n & Hn & Hx).
  exists n. repeat split; auto.
  unfold files_written. rewrite length_map.
  apply Forall2_length in Hx. now rewrite length_seq in Hx.
Qed.

Lemma all_slides_exported_witness :
  snd (export_function ExportSlidesMacro "deck.pptx" "out" (office_env (deck_of 12)))
  = Ret true /\
  exists n,
    py_index (PInt 12) = Some n /\
    Forall2 (exported (office_env (deck_of 12)) h_pages "out") (seq 0 (Z.to_nat n))
      (exports (fst (export_function ExportSlidesMacro "deck.pptx" "out"
                       (office_env (deck_of 12))))) /\
    length (files_written (fst (export_function ExportSlidesMacro "deck.pptx" "out"
                                  (office_env (deck_of 12))))) = Z.to_nat n.
Proof.
  assert (H : snd (export_function ExportSlidesMacro "deck.pptx" "out"
                     (office_env (deck_of 12))) = Ret true) by (vm_compute; reflexivity).
  split; [exact H|].
  apply (all_slides_exported ExportSlidesMacro (office_env (deck_of 12)) "deck.pptx" "out"
           h_pages (PInt 12) H).
  vm_compute. do 11 right. left. reflexivity.
Defined.

(** [export_slides_to_png] cannot return true without having asked for the
    slide count. *)
Theorem export_slides_to_png_counts (env : Env) (input_file output_dir : string) :
  snd (exportSlides.export_slides_to_png input_file output_dir env) = Ret true ->
  exists pages count,
    In (EvCall (Invoke pages "getCount" []) (Ret count))
       (fst (exportSlides.export_slides_to_png input_file output_dir env)).
Proof.
  intros Hok.
  destruct (exportSlides.export_slides_to_png input_file output_dir env) as [t r] eqn:Hrun.
  cbn [fst snd] in *.
  run Hrun; try (leaf Hrun; try discriminate Hok).
  do 2 eexists. find_event.
Qed.

Lemma export_slides_to_png_counts_witness :
  exists pages count,
    In (EvCall (Invoke pages "getCount" []) (Ret count))
       (fst (exportSlides.export_slides_to_png "deck.pptx" "out" (office_env (deck_of 0)))).
Proof.
  apply (export_slides_to_png_counts (office_env (deck_of 0)) "deck.pptx" "out").
  vm_compute. reflexivity.
Defined.

(** The file names: 1-based, zero-padded to three digits, longer from the
    thousandth slide on; joined to the output directory with one slash. *)
Example slide_file_names :
  slide_file_name 0 = "slide_001.png"%string /\
  slide_file_name 11 = "slide_012.png"%string /\
  slide_file_name 998 = "slide_999.png"%string /\
  slide_file_name 999 = "slide_1000.png"%string /\
  os_path_join "out" (slide_file_name 0) = "out/slide_001.png"%string /\
  os_path_join "out/" (slide_file_name 0) = "out/slide_001.png"%string /\
  os_path_join "" (slide_file_name 0) = "slide_001.png"%string.
Proof. vm_compute. repeat split. Qed.

(** With no slide at all the loop does not run: nothing is exported, the
    document is closed and the run succeeds. *)
Example empty_deck :
  snd (export_function ExportSlides "deck.pptx" "out" (office_env (deck_of 0))) = Ret true /\
  snd (export_function ExportSlidesMacro "deck.pptx" "out" (office_env (deck_of 0))) = Ret true /\
  files_written (fst (export_function ExportSlides "deck.pptx" "out"
                        (office_env (deck_of 0)))) = [] /\
  files_written (fst (export_function ExportSlidesMacro "deck.pptx" "out"
                        (office_env (deck_of 0)))) = [] /\
  mentions "getByIndex" (fst (export_function ExportSlides "deck.pptx" "out"
                                (office_env (deck_of 0)))) = false /\
  mentions "close" (fst (export_function ExportSlides "deck.pptx" "out"
                           (office_env (deck_of 0)))) = true.
Proof. vm_compute. repeat split. Qed.

(* ================================================================= *)
(** * Further properties of the scripts *)

(** ** Output file names *)

Lemma string_append_nil (y : string) : ("" ++ y)%string = y.
Proof. reflexivity. Qed.

Lemma string_append_cons (c : ascii) (x y : string) :
  (String c x ++ y)%string = String c (x ++ y).
Proof. reflexivity. Qed.

Lemma string_length_append (x y : string) :
  String.length (x ++ y)%string = String.length x + String.length y.
Proof.
  induction x as [|c x IH]; rewrite ?string_append_nil, ?string_append_cons; cbn;
    [reflexivity | now rewrite IH].
Qed.

Lemma string_append_inv_head (a x y : string) : (a ++ x = a ++ y)%string -> x = y.
Proof.
  induction a as [|c a IH]; rewrite ?string_append_nil, ?string_append_cons;
    [auto | intros [= H]; auto].
Qed.

Lemma string_append_inv_tail (t x y : string) : (x ++ t = y ++ t)%string -> x = y.
Proof.
  revert y. induction x as [|c x IH]; intros [|d y] H.
  - reflexivity.
  - apply (f_equal String.length) in H. rewrite !string_length_append in H. cbn in H. lia.
  - apply (f_equal String.length) in H. rewrite !string_length_append in H. cbn in H. lia.
  - rewrite !string_append_cons in H. injection H as -> H. f_equal. now apply IH.
Qed.

(** Reading a padded number back: leading zeros do not count. *)
Lemma format_03d_read_back (n : nat) :
  option_map Nat.of_uint (NilEmpty.uint_of_string (format_03d n)) = Some n.
Proof.
  unfold format_03d.
  assert (H : option_map Nat.of_uint
                (NilEmpty.uint_of_string (NilEmpty.string_of_uint (Nat.to_uint n))) = Some n).
  { rewrite NilEmpty.usu. cbn. now rewrite Unsigned.of_to. }
  destruct (String.length (NilEmpty.string_of_uint (Nat.to_uint n))) as [|[|[|k]]] eqn:Hlen;
    try exact H.
  - destruct (NilEmpty.string_of_uint (Nat.to_uint n)); [|discriminate Hlen].
    cbn in H. injection H as <-. reflexivity.
  - rewrite !string_append_cons, string_append_nil. cbn.
    destruct (NilEmpty.uint_of_string (NilEmpty.string_of_uint (Nat.to_uint n)));
      [|discriminate H]. cbn in *. exact H.
  - rewrite !string_append_cons, string_append_nil. cbn.
    destruct (NilEmpty.uint_of_string (NilEmpty.string_of_uint (Nat.to_uint n)));
      [|discriminate H]. cbn in *. exact H.
Qed.

Lemma format_03d_injective (n m : nat) : format_03d n = format_03d m -> n = m.
Proof.
  intros H. pose proof (format_03d_read_back n) as Hn.
  rewrite H, format_03d_read_back in Hn. now injection Hn.
Qed.

Lemma slide_file_name_injective (i j : nat) :
  slide_file_name i = slide_file_name j -> i = j.
Proof.
  unfold slide_file_name. intros H.
  apply string_append_inv_head, string_append_inv_tail, format_03d_injective in H. lia.
Qed.

(** Two different slides never get the same file name, however many slides
    there are. *)
Theorem slide_file_names_distinct (i j : nat) :
  i <> j -> slide_file_name i <> slide_file_name j.
Proof. intros Hij H. now apply slide_file_name_injective in H. Qed.

Lemma slide_file_names_distinct_witness : slide_file_name 9 <> slide_file_name 99.
Proof. apply (slide_file_names_distinct 9 99). lia. Defined.

Lemma format_03d_width (n : nat) : 3 <= String.length (format_03d n).
Proof.
  unfold format_03d.
  destruct (String.length (NilEmpty.string_of_uint (Nat.to_uint n))) as [|[|[|k]]] eqn:Hlen;
    rewrite ?string_length_append; cbn; lia.
Qed.

Lemma format_03d_three_digits (n : nat) : n < 1000 -> String.length (format_03d n) = 3.
Proof.
  intros H.
  assert (Hall : forallb (fun k => (String.length (format_03d k) =? 3)%nat) (seq 0 1000) = true)
    by (vm_compute; reflexivity).
  rewrite forallb_forall in Hall. apply Nat.eqb_eq, Hall, in_seq. lia.
Qed.

(** A decimal numeral of [k] digits denotes a number below [10 ^ k]. *)
Lemma of_uint_acc_bound (d : Decimal.uint) :
  forall acc,
    Nat.of_uint_acc d acc
    < (acc + 1) * 10 ^ String.length (NilEmpty.string_of_uint d).
Proof.
  induction d; intros acc; cbn [Nat.of_uint_acc NilEmpty.string_of_uint String.length];
    [cbn; lia | ..].
  all: rewrite Nat.tail_mul_spec, Nat.pow_succ_r';
    match goal with |- Nat.of_uint_acc _ ?a < _ => specialize (IHd a) end;
    pose proof (Nat.pow_nonzero 10 (String.length (NilEmpty.string_of_uint d)) ltac:(lia));
    nia.
Qed.

Lemma digits_hold_the_number (n : nat) :
  n < 10 ^ String.length (NilEmpty.string_of_uint (Nat.to_uint n)).
Proof.
  pose proof (of_uint_acc_bound (Nat.to_uint n) 0) as H.
  change (Nat.of_uint_acc (Nat.to_uint n) 0) with (Nat.of_uint (Nat.to_uint n)) in H.
  rewrite Unsigned.of_to in H. lia.
Qed.

(** The digit field is always wide enough: nothing is cut off or wrapped. *)
Lemma format_03d_holds (n : nat) : n < 10 ^ String.length (format_03d n).
Proof.
  pose proof (digits_hold_the_number n) as H. unfold format_03d.
  destruct (String.length (NilEmpty.string_of_uint (Nat.to_uint n))) as [|[|[|k]]] eqn:Hlen;
    rewrite ?string_length_append, ?Hlen; cbn [String.length Nat.add] in *; try exact H.
  all: cbn in *; lia.
Qed.

(** Names are [slide_] + digits + [.png].  There are at least three digits
    and exactly three for the first 999 slides, so every name has at least
    13 characters and exactly 13 up to [slide_999.png]; from the thousandth
    slide on the name is longer, and at every size the digit field has room
    for the slide number: the number is never cut off or wrapped. *)
Theorem slide_file_name_width (i : nat) :
  13 <= String.length (slide_file_name i) /\
  (i < 999 -> String.length (slide_file_name i) = 13) /\
  (999 <= i -> 13 < String.length (slide_file_name i)) /\
  i + 1 < 10 ^ (String.length (slide_file_name i) - 10).
Proof.
  unfold slide_file_name. rewrite !string_length_append. cbn [String.length].
  pose proof (format_03d_width (i + 1)) as Hw.
  pose proof (format_03d_holds (i + 1)) as Hh.
  split; [lia|]. split; [|split].
  - intros Hi. rewrite format_03d_three_digits by lia. reflexivity.
  - intros Hi.
    destruct (String.length (format_03d (i + 1))) as [|[|[|[|k]]]]; try lia.
    cbn in Hh. lia.
  - replace (6 + (String.length (format_03d (i + 1)) + 4) - 10)
      with (String.length (format_03d (i + 1))) by lia.
    exact Hh.
Qed.

Lemma slide_file_name_width_witness :
  String.length (slide_file_name 998) = 13 /\ 13 < String.length (slide_file_name 999).
Proof.
  destruct (slide_file_name_width 998) as (_ & H & _).
  destruct (slide_file_name_width 999) as (_ & _ & H' & _).
  split; [apply H | apply H']; lia.
Defined.

(** The names do not start with a slash, so [os.path.join] never discards
    the output directory. *)
Lemma slide_file_name_relative (i : nat) : prefix "/" (slide_file_name i) = false.
Proof. reflexivity. Qed.

(** Joined to one output directory, different slides get different paths. *)
Theorem output_paths_distinct (output_dir : string) (i j : nat) :
  i <> j ->
  os_path_join output_dir (slide_file_name i) <> os_path_join output_dir (slide_file_name j).
Proof.
  unfold os_path_join. intros Hij H. apply Hij.
  destruct ((output_dir =? "")%string || ends_with_slash output_dir).
  - now apply string_append_inv_head, slide_file_name_injective in H.
  - now apply string_append_inv_head, string_append_inv_head, slide_file_name_injective in H.
Qed.

Lemma output_paths_distinct_witness :
  os_path_join "out" (slide_file_name 0) <> os_path_join "out" (slide_file_name 1).
Proof. apply (output_paths_distinct "out" 0 1). lia. Defined.

(** ** What the loops ask for *)

Lemma methods_app (t1 t2 : trace) : methods (t1 ++ t2) = methods t1 ++ methods t2.
Proof. unfold methods. now rewrite requests_app, map_app. Qed.

Lemma requests_on_call (Q : call -> Prop) (t : trace) :
  Forall Q (requests t) -> Forall (on_call Q) t.
Proof.
  unfold requests. induction t as [|e t IH]; cbn [flat_map]; intros H; [constructor|].
  apply Forall_app in H as [He Ht]. constructor; auto.
  destruct e; cbn in *; auto. now inversion He.
Qed.

Lemma for_each_forall (P : event -> Prop) {A} (body : A -> M unit) (xs : list A) (env : Env) :
  (forall x, Forall P (fst (body x env))) -> Forall P (fst (for_each xs body env)).
Proof.
  intros H. induction xs as [|x xs IH]; cbn [for_each]; [constructor|].
  rewrite bind_run. specialize (H x).
  destruct (body x env) as [t1 [[]|msg]]; cbn [fst] in *; auto.
  destruct (for_each xs body env) as [t2 r]; cbn [fst] in *. apply Forall_app; auto.
Qed.

Lemma pass_of (s : script) (env : Env) (pres pages : handle) (o : string) (i : nat) :
  (s = ExportSlidesMacro -> host env (Invoke pres "getSlides" []) = Ret (PObj pages)) ->
  match s with
  | ExportSlides => exportSlides.export_slide (PObj pages) o i env
  | ExportSlidesMacro => exportSlidesMacro.export_slide (PObj pres) o i env
  end
  = (match s with
     | ExportSlides => []
     | ExportSlidesMacro => [EvCall (Invoke pres "getSlides" []) (Ret (PObj pages))]
     end ++ fst (exportSlides.export_slide (PObj pages) o i env),
     snd (exportSlides.export_slide (PObj pages) o i env)).
Proof.
  intros Hs. destruct s.
  - now destruct (exportSlides.export_slide (PObj pages) o i env).
  - apply macro_pass. now apply Hs.
Qed.

(** The export request of a pass, if the pass gets that far, is for the
    slide of that pass, its URL and the PNG filter. *)
Lemma pass_requests (env : Env) (pages : handle) (o : string) (i : nat) :
  Forall (on_call (fun c => (method_of c =? "export")%string = true -> export_request env o c))
    (fst (exportSlides.export_slide (PObj pages) o i env)).
Proof.
  destruct (exportSlides.export_slide (PObj pages) o i env) as [t r] eqn:H.
  unfold exportSlides.export_slide, abspath in H. run_cbn H.
  repeat run_step H; leaf H; cbn [fst]; repeat constructor; cbn; try (intro; discriminate).
  all: intros _; eexists _, _, _, _; repeat split; eassumption.
Qed.

Lemma pass_methods_run (env : Env) (pages : handle) (o : string) (i : nat) :
  exists rest,
    methods (fst (exportSlides.export_slide (PObj pages) o i env)) ++ rest
    = pass_methods ExportSlides /\
    (forall u, snd (exportSlides.export_slide (PObj pages) o i env) = Ret u -> rest = []).
Proof.
  destruct (exportSlides.export_slide (PObj pages) o i env) as [t r] eqn:H.
  unfold exportSlides.export_slide, abspath in H. run_cbn H.
  repeat run_step H; leaf H; cbn [fst snd]; eexists; (split; [cbn; reflexivity|]);
    intros u Hu; first [discriminate Hu | reflexivity].
Qed.

(** The passes a loop got through, method by method. *)
Lemma loop_methods_run (body : nat -> M unit) (pm : list string) (env : Env) :
  (forall i, exists rest,
      methods (fst (body i env)) ++ rest = pm /\
      (forall u, snd (body i env) = Ret u -> rest = [])) ->
  forall idx, exists rest,
      methods (fst (for_each idx body env)) ++ rest = concat (repeat pm (length idx)) /\
      (forall u, snd (for_each idx body env) = Ret u -> rest = []).
Proof.
  intros H idx. induction idx as [|i idx IH]; cbn [for_each length repeat concat].
  - exists []. split; [reflexivity | auto].
  - rewrite bind_run. destruct (H i) as (rest1 & Hm1 & Hr1).
    destruct (body i env) as [t1 [[]|msg]]; cbn [fst snd] in *.
    + destruct IH as (rest & Hm & Hr).
      destruct (for_each idx body env) as [t2 r2]; cbn [fst snd] in *.
      exists rest. split; [|exact Hr].
      rewrite (Hr1 tt eq_refl), app_nil_r in Hm1.
      now rewrite methods_app, <- app_assoc, Hm, Hm1.
    + exists (rest1 ++ concat (repeat pm (length idx))). split.
      * now rewrite app_assoc, Hm1.
      * intros u Hu. discriminate Hu.
Qed.

Lemma script_loop_methods (s : script) (env : Env) (pres pages : handle) (o : string)
    (idx : list nat) :
  (s = ExportSlidesMacro -> host env (Invoke pres "getSlides" []) = Ret (PObj pages)) ->
  exists rest,
    methods (fst (for_each idx
                    match s with
                    | ExportSlides => exportSlides.export_slide (PObj pages) o
                    | ExportSlidesMacro => exportSlidesMacro.export_slide (PObj pres) o
                    end env)) ++ rest
    = concat (repeat (pass_methods s) (length idx)) /\
    (forall u, snd (for_each idx
                      match s with
                      | ExportSlides => exportSlides.export_slide (PObj pages) o
                      | ExportSlidesMacro => exportSlidesMacro.export_slide (PObj pres) o
                      end env) = Ret u -> rest = []).
Proof.
  intros Hs. apply loop_methods_run. intros i.
  pose proof (pass_of s env pres pages o i Hs) as Hp.
  destruct (pass_methods_run env pages o i) as (rest & Hm & Hr).
  exists rest. destruct s; rewrite Hp; cbn [fst snd]; split; auto.
  rewrite methods_app, <- app_assoc, Hm. reflexivity.
Qed.

Lemma script_loop_requests (s : script) (env : Env) (pres pages : handle) (o : string)
    (idx : list nat) :
  (s = ExportSlidesMacro -> host env (Invoke pres "getSlides" []) = Ret (PObj pages)) ->
  Forall (on_call (fun c => (method_of c =? "export")%string = true -> export_request env o c))
    (fst (for_each idx
            match s with
            | ExportSlides => exportSlides.export_slide (PObj pages) o
            | ExportSlidesMacro => exportSlidesMacro.export_slide (PObj pres) o
            end env)).
Proof.
  intros Hs. apply for_each_forall. intros i.
  pose proof (pass_of s env pres pages o i Hs) as Hp.
  destruct s; rewrite Hp; cbn [fst]; (apply Forall_app; split; [|apply pass_requests]);
    repeat constructor. cbn. intro H. discriminate H.
Qed.

(** ** What a run asks for, and in which order *)

Ltac loop_facts :=
  try match goal with
      | Hl : for_each ?xs (exportSlides.export_slide (PObj ?pg) ?o) ?e = (?tl, ?rl) |- _ =>
          let Hm := fresh "Hm" in
          let Hq := fresh "Hq" in
          let Hn := fresh "Hn" in
          pose proof (script_loop_methods ExportSlides e pg pg o xs
                        ltac:(intro; discriminate)) as Hm;
          pose proof (script_loop_requests ExportSlides e pg pg o xs
                        ltac:(intro; discriminate)) as Hq;
          pose proof (loop_requests ExportSlides (PObj pg) o xs e) as Hn;
          cbv beta iota in Hm, Hq, Hn; rewrite Hl in Hm, Hq, Hn; cbn [fst snd] in Hm, Hq, Hn
      | Hs : host ?e (Invoke ?p "getSlides" []) = Ret (PObj ?pg),
        Hl : for_each ?xs (exportSlidesMacro.export_slide (PObj ?p) ?o) ?e = (?tl, ?rl) |- _ =>
          let Hm := fresh "Hm" in
          let Hq := fresh "Hq" in
          let Hn := fresh "Hn" in
          pose proof (script_loop_methods ExportSlidesMacro e p pg o xs (fun _ => Hs)) as Hm;
          pose proof (script_loop_requests ExportSlidesMacro e p pg o xs (fun _ => Hs)) as Hq;
          pose proof (loop_requests ExportSlidesMacro (PObj p) o xs e) as Hn;
          cbv beta iota in Hm, Hq, Hn; rewrite Hl in Hm, Hq, Hn; cbn [fst snd] in Hm, Hq, Hn
      end.

Ltac session_shape :=
  unfold per_slide_session, connect_methods, enumerate_methods, methods, requests in *;
  cbn [flat_map request_of map method_of app];
  rewrite ?flat_map_app, ?map_app; cbn [flat_map request_of map method_of app];
  rewrite <- ?app_assoc; cbn [app].

Lemma run_session (s : script) (env : Env) (input_file output_dir : string) :
  exists full rest,
    complete_session s full /\
    methods (fst (export_function s input_file output_dir env)) ++ rest = full /\
    (snd (export_function s input_file output_dir env) = Ret true -> rest = []).
Proof.
  destruct (export_function s input_file output_dir env) as [t r] eqn:Hrun. cbn [fst snd].
  destruct s; run Hrun; leaf Hrun; loop_facts.
  all: try solve [ exists (per_slide_session ExportSlides 0); eexists;
                   split; [left; exists 0; reflexivity|];
                   split; [cbn; reflexivity | intro Hr; first [discriminate Hr | reflexivity]] ].
  all: try solve [ exists (per_slide_session ExportSlidesMacro 0); eexists;
                   split; [left; exists 0; reflexivity|];
                   split; [cbn; reflexivity | intro Hr; first [discriminate Hr | reflexivity]] ].
  all: try solve [ exists slide_show_session; eexists;
                   split; [right; split; reflexivity|];
                   split; [cbn; reflexivity | intro Hr; first [discriminate Hr | reflexivity]] ].
  all: destruct Hm as (rest & Hm & Hr); rewrite length_seq in Hm;
    match goal with
    | |- exists full _, complete_session ?s full /\ _ =>
        match type of Hm with
        | _ = concat (repeat _ ?n) => exists (per_slide_session s n)
        end
    end;
    first [ specialize (Hr tt eq_refl); subst rest; rewrite app_nil_r in Hm; exists []
          | exists (rest ++ ["close"]) ];
    (split; [left; eexists; reflexivity|]);
    (split; [ session_shape; rewrite <- Hm; session_shape; rewrite ?app_nil_r; reflexivity
            | intro Hok; first [discriminate Hok | reflexivity] ]).
Qed.

(** The requests of a run follow the script: their methods, in order, are the
    beginning of one complete session -- connection, load, enumeration, one
    pass per slide, close; or, for the macro with a slide show controller,
    connection, load, the two controller lookups, close -- and a run that
    returns true is a complete session. *)
Theorem session_protocol (s : script) (env : Env) (input_file output_dir : string) :
  exists full rest,
    complete_session s full /\
    methods (fst (export_function s input_file output_dir env)) ++ rest = full /\
    (snd (export_function s input_file output_dir env) = Ret true -> rest = []).
Proof. exact (run_session s env input_file output_dir). Qed.

Lemma filter_passes (f : string -> bool) (pm : list string) (n : nat) :
  filter f pm = [] -> filter f (concat (repeat pm n)) = [].
Proof.
  intros H. induction n as [|n IH]; cbn [repeat concat]; [reflexivity|].
  now rewrite filter_app, H, IH.
Qed.

Lemma times_in_session (s : script) (full : list string) (meth : string) :
  complete_session s full ->
  filter (String.eqb meth) (pass_methods s) = [] ->
  length (filter (String.eqb meth) full)
  <= length (filter (String.eqb meth)
               (connect_methods ++ enumerate_methods s ++ ["close"])).
Proof.
  intros [[n ->]|[-> ->]] Hp.
  - unfold per_slide_session.
    rewrite !filter_app, (filter_passes _ _ n Hp), !length_app. cbn [length app]. lia.
  - unfold slide_show_session. cbn [enumerate_methods].
    rewrite !filter_app, !length_app. cbn [filter length app].
    repeat match goal with |- context [if ?b then _ else _] => destruct b end; cbn; lia.
Qed.

(** A run connects at most once, loads at most one document, asks for the
    slide count at most once and closes at most once. *)
Theorem at_most_once (s : script) (env : Env) (input_file output_dir : string) :
  Forall (fun meth => times meth (fst (export_function s input_file output_dir env)) <= 1)
    ["resolve"; "loadComponentFromURL"; "getCount"; "close"]%string.
Proof.
  destruct (run_session s env input_file output_dir) as (full & rest & Hc & Hm & _).
  assert (H : forall meth,
             filter (String.eqb meth) (pass_methods s) = [] ->
             length (filter (String.eqb meth)
                       (connect_methods ++ enumerate_methods s ++ ["close"])) <= 1 ->
             times meth (fst (export_function s input_file output_dir env)) <= 1).
  { intros meth Hp Hone. unfold times.
    pose proof (times_in_session s full meth Hc Hp) as Hfull.
    rewrite <- Hm, filter_app, length_app in Hfull. lia. }
  repeat (apply Forall_cons; [apply H; destruct s; cbn; auto|]). apply Forall_nil.
Qed.

Lemma not_in_passes (x : string) (pm : list string) (n : nat) :
  ~ In x pm -> ~ In x (concat (repeat pm n)).
Proof.
  intros H. induction n as [|n IH]; cbn [repeat concat]; [auto|].
  intros Hin. apply in_app_or in Hin. tauto.
Qed.

Lemma last_occurrence {A} (x : A) (body a b rest : list A) :
  ~ In x body -> (a ++ x :: b) ++ rest = body ++ [x] -> b = [] /\ rest = [].
Proof.
  revert a. induction body as [|y body IH]; intros a Hnot H.
  - destruct a as [|a0 a]; cbn in H.
    + injection H as H. now apply app_eq_nil in H.
    + injection H as _ H. destruct a; discriminate H.
  - destruct a as [|a0 a]; cbn in H.
    + injection H as -> _. exfalso. apply Hnot. now left.
    + injection H as _ H. apply (IH a); [|exact H].
      intros Hin. apply Hnot. now right.
Qed.

(** Nothing is asked of the host after the close: a [close] request, if
    there is one, is the last request of the run. *)
Theorem close_is_final (s : script) (env : Env) (input_file output_dir : string)
    (before after : list string) :
  methods (fst (export_function s input_file output_dir env)) = before ++ "close"%string :: after ->
  after = [].
Proof.
  intros Hsplit.
  destruct (run_session s env input_file output_dir) as (full & rest & Hc & Hm & _).
  rewrite Hsplit in Hm.
  destruct Hc as [[n ->]|[-> ->]].
  - unfold per_slide_session in Hm. rewrite !app_assoc in Hm.
    apply last_occurrence in Hm; [tauto|].
    intros Hin. rewrite <- app_assoc in Hin.
    apply in_app_or in Hin as [Hin|Hin].
    + cbn in Hin. repeat (destruct Hin as [Hin|Hin]; [discriminate Hin|]). exact Hin.
    + apply in_app_or in Hin as [Hin|Hin].
      * destruct s; cbn in Hin;
          repeat (destruct Hin as [Hin|Hin]; [discriminate Hin|]); exact Hin.
      * revert Hin. apply not_in_passes.
        destruct s; cbn; intros Hin;
          repeat (destruct Hin as [Hin|Hin]; [discriminate Hin|]); exact Hin.
  - change slide_show_session with
      ((connect_methods ++ ["getCurrentController"; "getSlideShowController"]%string)
         ++ ["close"%string]) in Hm.
    apply last_occurrence in Hm; [tauto|].
    cbn. intros Hin. repeat (destruct Hin as [Hin|Hin]; [discriminate Hin|]). exact Hin.
Qed.

Lemma close_is_final_witness :
  methods (fst (export_function ExportSlides "deck.pptx" "out" (office_env (deck_of 1))))
  = ["ServiceManager"; "createInstanceWithContext"; "resolve"; "ServiceManager";
     "createInstanceWithContext"; "loadComponentFromURL"; "getPresentation"; "getSlides";
     "getCount"; "getByIndex"; "export"]%string ++ "close"%string :: [] /\
  @nil string = [].
Proof.
  assert (H : methods (fst (export_function ExportSlides "deck.pptx" "out"
                              (office_env (deck_of 1))))
              = ["ServiceManager"; "createInstanceWithContext"; "resolve"; "ServiceManager";
                 "createInstanceWithContext"; "loadComponentFromURL"; "getPresentation";
                 "getSlides"; "getCount"; "getByIndex"; "export"]%string
                  ++ "close"%string :: []) by (vm_compute; reflexivity).
  split; [exact H|].
  exact (close_is_final ExportSlides (office_env (deck_of 1)) "deck.pptx" "out" _ _ H).
Defined.

(** ** Where the requests point *)

(** The scripts talk to one fixed endpoint and ask the service managers for
    two services only: every [resolve] request carries the URL of
    localhost:2002, every [createInstanceWithContext] request asks for the
    URL resolver or for the desktop, and the only attribute ever read is
    [ServiceManager]. *)
Theorem fixed_endpoint (s : script) (env : Env) (input_file output_dir : string) :
  Forall connection_request (requests (fst (export_function s input_file output_dir env))).
Proof.
  apply on_call_requests. revert env.
  destruct s; unfold_functions;
    always_rules ltac:(first
      [ exact I
      | reflexivity
      | split; intro H;
        first [ discriminate H | reflexivity
              | eexists; left; reflexivity | eexists; right; reflexivity ] ]).
Qed.

Ltac forall_events side :=
  repeat first
    [ apply Forall_nil
    | apply Forall_cons; [side|]
    | assumption
    | apply Forall_app; split ].

(** Whatever a run asks to export is a slide of the collection, to the URL
    of that slide's file under the output directory, as PNG: no export
    request, successful or not, names another object, place or format. *)
Theorem exports_only_slides (s : script) (env : Env) (input_file output_dir : string) :
  Forall (fun c => (method_of c =? "export")%string = true -> export_request env output_dir c)
    (requests (fst (export_function s input_file output_dir env))).
Proof.
  apply on_call_requests.
  destruct (export_function s input_file output_dir env) as [t r] eqn:Hrun. cbn [fst].
  destruct s; run Hrun; leaf Hrun; loop_facts;
    forall_events ltac:(cbn; first [exact I | intro H; discriminate H]).
Qed.

(** The document a run asks the host to load is the input file and nothing
    else: every load request carries the URL of the absolute input path, the
    target [_blank], search flags 0 and the script's property tuple. *)
Theorem loads_the_input_file (s : script) (env : Env) (input_file output_dir : string) :
  Forall (fun c => is_load c = true ->
            exists desktop url,
              uno_systemPathToFileUrl env (os_path_abspath env input_file) = Ret url /\
              c = Invoke desktop "loadComponentFromURL"
                    [AV (PStr url); AV (PStr "_blank"); AV (PInt 0);
                     ATuple (load_properties s)])
    (requests (fst (export_function s input_file output_dir env))).
Proof.
  apply on_call_requests.
  destruct (export_function s input_file output_dir env) as [t r] eqn:Hrun. cbn [fst].
  destruct s; run Hrun; leaf Hrun; loop_facts.
  all: try match goal with
           | Hn : Forall (fun c => loop_method c = true) (requests ?tl) |- Forall ?P _ =>
               assert (Htl : Forall P tl)
                 by (apply requests_on_call; eapply Forall_impl; [|exact Hn];
                     intros c Hc Hl; unfold is_load in Hl;
                     rewrite (loop_method_other c "loadComponentFromURL" Hc eq_refl) in Hl;
                     discriminate Hl)
           end.
  all: forall_events ltac:(cbn; first [ exact I
                                      | intro H; discriminate H
                                      | intros _; eexists _, _; split;
                                        [first [eassumption | reflexivity] | reflexivity] ]).
Qed.

(** ** The files of a run *)

(** Whatever happens, the files a run has written are those of the passes
    [0 .. k-1] for some [k], in that order, and [k] does not exceed the slide
    count the host reported. *)
Lemma run_files (s : script) (env : Env) (i o : string) :
  exists k,
    Forall2 (fun j url => output_url env o j = Ret url) (seq 0 k)
      (files_written (fst (export_function s i o env))) /\
    forall pages count n,
      In (pages, count) (answers "getCount" (fst (export_function s i o env))) ->
      py_index count = Some n -> k <= Z.to_nat n.
Proof.
  destruct (export_function s i o env) as [t r] eqn:Hrun. cbn [fst].
  destruct s; run Hrun; leaf Hrun.
  all: try solve [ exists 0; split; [constructor | intros; lia] ].
  all: match goal with
       | Hl : for_each _ (exportSlides.export_slide _ _) _ = _ |- _ =>
           destruct (loop_quiet ExportSlides _ _ _ _ _ _ Hl) as (Hquiet & _);
           destruct (export_loop _ _ _ _ _ _ _ Hl) as (_ & k & Hk & Hr)
       | Hs : host _ (Invoke _ "getSlides" []) = Ret (PObj _),
         Hl : for_each _ (exportSlidesMacro.export_slide _ _) _ = _ |- _ =>
           destruct (loop_quiet ExportSlidesMacro _ _ _ _ _ _ Hl) as (Hquiet & _);
           destruct (macro_loop _ _ _ _ _ _ _ _ Hs Hl) as (_ & k & Hk & Hr)
       end;
       destruct (Hquiet "getCount" eq_refl) as (Hcount & _).
  all: exists k; split;
    [ unfold files_written, exports in *; cbn; rewrite ?flat_map_app; cbn;
      rewrite ?app_nil_r; now apply (files_of_exports _ _ _ _ _ Hk)
    | intros pages count n Hin Hn; unfold answers in *;
      cbn in Hin; rewrite ?flat_map_app in Hin; rewrite ?Hcount in Hin; cbn in Hin;
      destruct Hin as [Hin|[]]; injection Hin as <- <-;
      assert (n = z) by congruence; subst n; lia ].
Qed.

(** The files written by any run, successful or not, are [slide_001.png],
    [slide_002.png], ... up to some [slide_{k:03d}.png] under the output
    directory, in that order and without a gap; [k] never exceeds the slide
    count the host reported. *)
Theorem files_are_a_prefix (s : script) (env : Env) (input_file output_dir : string) :
  exists k,
    Forall2 (fun j url => output_url env output_dir j = Ret url) (seq 0 k)
      (files_written (fst (export_function s input_file output_dir env))) /\
    forall pages count n,
      In (EvCall (Invoke pages "getCount" []) (Ret count))
         (fst (export_function s input_file output_dir env)) ->
      py_index count = Some n -> k <= Z.to_nat n.
Proof.
  destruct (run_files s env input_file output_dir) as (k & Hk & Hn).
  exists k. split; [exact Hk|].
  intros pages count n Hin. apply answered in Hin. now apply (Hn pages).
Qed.

Lemma Forall2_NoDup {A B} (R : A -> B -> Prop) (xs : list A) (ys : list B) :
  (forall x x' y, R x y -> R x' y -> x = x') ->
  Forall2 R xs ys -> NoDup xs -> NoDup ys.
Proof.
  intros Hinj H. induction H as [|x y xs ys Hxy Hrest IH]; intros Hnd; [constructor|].
  inversion Hnd as [|? ? Hnotin Hnd']; subst. constructor; auto.
  intros Hin. apply Hnotin.
  clear IH Hnd Hnd' Hnotin. induction Hrest as [|x' y' xs ys Hx'y' _ IH]; [destruct Hin|].
  destruct Hin as [->|Hin]; [left; now apply (Hinj x' x y) | right; auto].
Qed.

(** On a host where different slides have different URLs, no run writes the
    same file twice: a run never overwrites its own output. *)
Theorem no_file_written_twice (s : script) (env : Env) (input_file output_dir : string) :
  urls_distinct env output_dir ->
  NoDup (files_written (fst (export_function s input_file output_dir env))).
Proof.
  intros Hd. destruct (run_files s env input_file output_dir) as (k & Hk & _).
  apply (Forall2_NoDup _ _ _ (fun i j url Hi Hj => Hd i j url Hi Hj) Hk), seq_NoDup.
Qed.

Lemma office_urls_distinct (o : office) : urls_distinct (office_env o) "out".
Proof.
  intros i j url Hi Hj. unfold output_url in *.
  change (os_path_join "out" (slide_file_name i))
    with ("out/" ++ slide_file_name i)%string in Hi.
  change (os_path_join "out" (slide_file_name j))
    with ("out/" ++ slide_file_name j)%string in Hj.
  cbn [office_env uno_systemPathToFileUrl os_path_abspath] in Hi, Hj.
  change (prefix "/" ("out/" ++ slide_file_name i)) with false in Hi.
  change (prefix "/" ("out/" ++ slide_file_name j)) with false in Hj.
  cbv iota in Hi, Hj.
  rewrite <- Hj in Hi. injection Hi as Hi.
  rewrite !string_append_nil in Hi.
  apply string_append_inv_tail, format_03d_injective in Hi. lia.
Qed.

Lemma no_file_written_twice_witness :
  urls_distinct (office_env (deck_of 12)) "out" /\
  NoDup (files_written (fst (export_function ExportSlidesMacro "deck.pptx" "out"
                               (office_env (deck_of 12))))).
Proof.
  split; [apply office_urls_distinct|].
  exact (no_file_written_twice ExportSlidesMacro (office_env (deck_of 12)) "deck.pptx" "out"
           (office_urls_distinct (deck_of 12))).
Defined.

(** ** Odd answers from the host *)

Ltac loop_silence meth :=
  try match goal with
      | Hl : for_each _ (exportSlides.export_slide _ _) _ = _ |- _ =>
          let Hquiet := fresh "Hquiet" in
          let Hnone := fresh "Hnone" in
          destruct (loop_quiet ExportSlides _ _ _ _ _ _ Hl) as (Hquiet & _);
          destruct (Hquiet meth eq_refl) as (Hnone & _)
      | Hl : for_each _ (exportSlidesMacro.export_slide _ _) _ = _ |- _ =>
          let Hquiet := fresh "Hquiet" in
          let Hnone := fresh "Hnone" in
          destruct (loop_quiet ExportSlidesMacro _ _ _ _ _ _ Hl) as (Hquiet & _);
          destruct (Hquiet meth eq_refl) as (Hnone & _)
      end.

Ltac read_answer Hin :=
  unfold answers in *; cbn in Hin; rewrite ?flat_map_app in Hin;
  repeat match goal with
         | Hnone : flat_map _ ?tl = [] |- _ => rewrite Hnone in Hin; clear Hnone
         end;
  cbn in Hin.

(** If the host answers [getCount()] with something that is not an integer
    ([None], a string, an object), [range] raises: the function returns
    false, no slide is fetched, no file is written, the document is not
    closed, and the error line names the type of the answer. *)
Theorem count_must_be_integer (s : script) (env : Env) (input_file output_dir : string)
    (pages : handle) (count : pyval) :
  In (EvCall (Invoke pages "getCount" []) (Ret count))
     (fst (export_function s input_file output_dir env)) ->
  py_index count = None ->
  snd (export_function s input_file output_dir env) = Ret false /\
  files_written (fst (export_function s input_file output_dir env)) = [] /\
  mentions "getByIndex" (fst (export_function s input_file output_dir env)) = false /\
  mentions "close" (fst (export_function s input_file output_dir env)) = false /\
  printed (fst (export_function s input_file output_dir env))
  = [(Stderr, ("Error: " ++ "'" ++ type_name count
                 ++ "' object cannot be interpreted as an integer")%string)].
Proof.
  intros Hin Hn. apply answered in Hin.
  destruct (export_function s input_file output_dir env) as [t r] eqn:Hrun. cbn [fst snd] in *.
  destruct s; run Hrun; leaf Hrun; loop_silence "getCount"%string; read_answer Hin.
  all: try contradiction.
  all: destruct Hin as [Hin|[]]; injection Hin as <- <-; try congruence.
  all: repeat split; reflexivity.
Qed.

Lemma count_must_be_integer_witness :
  In (EvCall (Invoke h_pages "getCount" []) (Ret PNone))
     (fst (export_function ExportSlides "deck.pptx" "out"
             (answering (office_env (deck_of 2)) h_pages "getCount" (Ret PNone)))) /\
  printed (fst (export_function ExportSlides "deck.pptx" "out"
                  (answering (office_env (deck_of 2)) h_pages "getCount" (Ret PNone))))
  = [(Stderr, "Error: 'NoneType' object cannot be interpreted as an integer"%string)].
Proof.
  assert (H : In (EvCall (Invoke h_pages "getCount" []) (Ret PNone))
                (fst (export_function ExportSlides "deck.pptx" "out"
                        (answering (office_env (deck_of 2)) h_pages "getCount" (Ret PNone))))).
  { vm_compute. do 8 right. left. reflexivity. }
  split; [exact H|].
  exact (proj2 (proj2 (proj2 (proj2
           (count_must_be_integer ExportSlides
              (answering (office_env (deck_of 2)) h_pages "getCount" (Ret PNone))
              "deck.pptx" "out" h_pages PNone H eq_refl))))).
Defined.

(** If the host reports a slide count that is zero or negative, the loop
    does not run: no slide is fetched, no export is requested and no file is
    written. *)
Theorem no_slides_no_passes (s : script) (env : Env) (input_file output_dir : string)
    (pages : handle) (count : pyval) (n : Z) :
  In (EvCall (Invoke pages "getCount" []) (Ret count))
     (fst (export_function s input_file output_dir env)) ->
  py_index count = Some n ->
  (n <= 0)%Z ->
  files_written (fst (export_function s input_file output_dir env)) = [] /\
  mentions "getByIndex" (fst (export_function s input_file output_dir env)) = false /\
  mentions "export" (fst (export_function s input_file output_dir env)) = false.
Proof.
  intros Hin Hn Hle. apply answered in Hin.
  destruct (export_function s input_file output_dir env) as [t r] eqn:Hrun. cbn [fst snd] in *.
  destruct s; run Hrun; leaf Hrun; loop_silence "getCount"%string; read_answer Hin.
  all: try contradiction.
  all: destruct Hin as [Hin|[]]; injection Hin as <- <-; try congruence.
  all: assert (Hz : n = z) by congruence; subst z;
    assert (H0 : Z.to_nat n = 0) by lia;
    match goal with
    | Hl : for_each _ _ _ = _ |- _ =>
        rewrite H0 in Hl; cbn [seq for_each ret] in Hl;
        first [discriminate Hl | injection Hl as <-]
    end.
  all: repeat split; reflexivity.
Qed.

Lemma no_slides_no_passes_witness :
  In (EvCall (Invoke h_pages "getCount" []) (Ret (PInt (-3))))
     (fst (export_function ExportSlidesMacro "deck.pptx" "out" (office_env (deck_of (-3))))) /\
  files_written (fst (export_function ExportSlidesMacro "deck.pptx" "out"
                        (office_env (deck_of (-3))))) = [] /\
  mentions "getByIndex" (fst (export_function ExportSlidesMacro "deck.pptx" "out"
                                (office_env (deck_of (-3))))) = false /\
  mentions "export" (fst (export_function ExportSlidesMacro "deck.pptx" "out"
                            (office_env (deck_of (-3))))) = false.
Proof.
  assert (H : In (EvCall (Invoke h_pages "getCount" []) (Ret (PInt (-3))))
                (fst (export_function ExportSlidesMacro "deck.pptx" "out"
                        (office_env (deck_of (-3)))))).
  { vm_compute. do 11 right. left. reflexivity. }
  split; [exact H|].
  apply (no_slides_no_passes ExportSlidesMacro (office_env (deck_of (-3))) "deck.pptx" "out"
           h_pages (PInt (-3)) (-3) H eq_refl).
  lia.
Defined.

(** If the load answers [None] instead of raising, the failure surfaces one
    step later, as an attribute error on the first method the script calls on
    the document: the function returns false, nothing is written, nothing is
    closed, and the error line names that method. *)
Theorem no_document_loaded (s : script) (env : Env) (input_file output_dir : string)
    (desktop : handle) (args : list arg) :
  In (EvCall (Invoke desktop "loadComponentFromURL" args) (Ret PNone))
     (fst (export_function s input_file output_dir env)) ->
  snd (export_function s input_file output_dir env) = Ret false /\
  files_written (fst (export_function s input_file output_dir env)) = [] /\
  mentions "close" (fst (export_function s input_file output_dir env)) = false /\
  printed (fst (export_function s input_file output_dir env))
  = [(Stderr, ("Error: 'NoneType' object has no attribute '"
                 ++ first_document_method s ++ "'")%string)].
Proof.
  intros Hin. apply answered in Hin.
  destruct (export_function s input_file output_dir env) as [t r] eqn:Hrun. cbn [fst snd] in *.
  destruct s; run Hrun; leaf Hrun; loop_silence "loadComponentFromURL"%string;
    read_answer Hin.
  all: try contradiction.
  all: destruct Hin as [Hin|[]]; try discriminate Hin.
  all: repeat split; reflexivity.
Qed.

Lemma no_document_loaded_witness :
  In (EvCall (Invoke h_desktop "loadComponentFromURL"
                [AV (PStr "file:///srv/deck.pptx"); AV (PStr "_blank"); AV (PInt 0); ATuple []])
             (Ret PNone))
     (fst (export_function ExportSlidesMacro "deck.pptx" "out"
             (answering (office_env (deck_of 2)) h_desktop "loadComponentFromURL"
                (Ret PNone)))) /\
  printed (fst (export_function ExportSlidesMacro "deck.pptx" "out"
                  (answering (office_env (deck_of 2)) h_desktop "loadComponentFromURL"
                     (Ret PNone))))
  = [(Stderr, "Error: 'NoneType' object has no attribute 'getCurrentController'"%string)].
Proof.
  assert (H : In (EvCall (Invoke h_desktop "loadComponentFromURL"
                            [AV (PStr "file:///srv/deck.pptx"); AV (PStr "_blank");
                             AV (PInt 0); ATuple []])
                         (Ret PNone))
                (fst (export_function ExportSlidesMacro "deck.pptx" "out"
                        (answering (office_env (deck_of 2)) h_desktop "loadComponentFromURL"
                           (Ret PNone))))).
  { vm_compute. do 5 right. left. reflexivity. }
  split; [exact H|].
  exact (proj2 (proj2 (proj2
           (no_document_loaded ExportSlidesMacro
              (answering (office_env (deck_of 2)) h_desktop "loadComponentFromURL" (Ret PNone))
              "deck.pptx" "out" h_desktop _ H)))).
Defined.

(** ** The process as a whole *)

(** The [try] blocks end by raising or by returning true, never false. *)
Lemma export_body_returns_true (s : script) (env : Env) (i o : string) (b : bool) :
  snd (export_body_of s i o env) = Ret b -> b = true.
Proof.
  destruct (export_body_of s i o env) as [t r] eqn:Hrun. cbn [snd].
  intros ->. destruct s; run Hrun; try discriminate Hrun; now injection Hrun.
Qed.

(** What the export function prints: nothing when it returns true, one line
    on the error stream when it returns false. *)
Lemma export_function_output (s : script) (env : Env) (i o : string) :
  (snd (export_function s i o env) = Ret true /\
   printed (fst (export_function s i o env)) = []) \/
  (snd (export_function s i o env) = Ret false /\
   exists msg, printed (fst (export_function s i o env))
               = [(Stderr, ("Error: " ++ msg)%string)]).
Proof.
  pose proof (export_body_silent s i o env) as Hsilent.
  pose proof (export_body_returns_true s env i o) as Htrue.
  rewrite export_function_run.
  destruct (export_body_of s i o env) as [t [b|msg]]; cbn [fst snd] in *.
  - left. rewrite (Htrue b eq_refl). auto.
  - right. split; [reflexivity|]. exists msg. now rewrite printed_app, Hsilent.
Qed.

Lemma three_arguments (argv : list string) :
  length argv = 3 -> exists prog i o, argv = [prog; i; o].
Proof.
  destruct argv as [|prog [|i [|o [|x argv]]]]; try discriminate. intros _. now eexists _, _, _.
Qed.

Lemma too_few_or_too_many (s : script) (env : Env) (argv : list string) :
  length argv <> 3 ->
  exists text, run_script (main_of s argv) env = ([text], 1%Z) /\
               exists line, print_of text = [(Stderr, line)].
Proof.
  intros Hlen. apply Nat.eqb_neq in Hlen.
  destruct s; cbn [main_of];
    unfold exportSlides.main, exportSlidesMacro.main, run_script, py_import, bind, lift;
    rewrite Hlen; cbn [negb].
  - destruct (import_error env "com.sun.star.beans.PropertyValue");
      eexists; (split; [cbn; reflexivity|]); eexists; reflexivity.
  - eexists; (split; [cbn; reflexivity|]); eexists; reflexivity.
Qed.

(** The exit status is 0 or 1, and it is 0 exactly when there are two
    arguments, the module got past its own imports, and the export function
    returned true. *)
Theorem exit_status_meaning (s : script) (env : Env) (argv : list string) :
  (exit_status s argv env = 0%Z \/ exit_status s argv env = 1%Z) /\
  (exit_status s argv env = 0%Z <->
   exists prog input_file output_dir,
     argv = [prog; input_file; output_dir] /\
     (s = ExportSlides -> import_error env "com.sun.star.beans.PropertyValue" = None) /\
     snd (export_function s input_file output_dir env) = Ret true).
Proof.
  unfold exit_status.
  destruct (Nat.eq_dec (length argv) 3) as [Hlen|Hlen].
  - destruct (three_arguments argv Hlen) as (prog & i & o & ->).
    rewrite main_runs_export.
    destruct (export_function_total s i o env) as [b Hb]. rewrite Hb.
    destruct s, (import_error env "com.sun.star.beans.PropertyValue") as [msg|] eqn:Himp,
      b; cbn [snd]; (split; [auto|]); split;
      try discriminate;
      try (intros _; exists prog, i, o; repeat split; auto; intro; discriminate).
    all: intros (prog' & i' & o' & Heq & Hi & Hok); injection Heq as <- <- <-;
      try (specialize (Hi eq_refl)); congruence.
  - destruct (too_few_or_too_many s env argv Hlen) as (text & -> & _). cbn [snd].
    split; [auto|]. split; [discriminate|].
    intros (prog & i & o & -> & _). now elim Hlen.
Qed.

(** A process that succeeds prints nothing; a process that fails prints
    exactly one message, on the error stream -- the usage line, the error
    line of the export function, or the interpreter's report.  Neither
    script ever writes to standard output. *)
Theorem output_discipline (s : script) (env : Env) (argv : list string) :
  (exit_status s argv env = 0%Z /\
   printed (fst (run_script (main_of s argv) env)) = []) \/
  (exit_status s argv env = 1%Z /\
   exists line, printed (fst (run_script (main_of s argv) env)) = [(Stderr, line)]).
Proof.
  unfold exit_status.
  destruct (Nat.eq_dec (length argv) 3) as [Hlen|Hlen].
  - destruct (three_arguments argv Hlen) as (prog & i & o & ->).
    rewrite main_runs_export.
    destruct (export_function_output s env i o) as [(Hr & Hp)|(Hr & msg & Hp)];
      rewrite Hr, ?Hp;
      destruct s, (import_error env "com.sun.star.beans.PropertyValue");
      cbn [fst snd]; rewrite ?Hp; eauto.
    all: right; split; [reflexivity|]; eexists; reflexivity.
  - destruct (too_few_or_too_many s env argv Hlen) as (text & -> & line & Hline).
    right. cbn [fst snd]. split; [reflexivity|]. exists line.
    unfold printed. cbn [flat_map]. now rewrite Hline.
Qed.

(** ** Failing fast *)

Lemma fails_fast_quiet {A} (m : M A) : (forall env, fst (m env) = []) -> fails_fast m.
Proof. intros H env c msg Hin. rewrite H in Hin. destruct Hin. Qed.

Lemma fails_fast_remote (c : call) : fails_fast (remote c).
Proof.
  intros env c' msg [H|[]]. cbn in *. injection H as <- H. rewrite H.
  split; [reflexivity|]. now exists [].
Qed.

Lemma fails_fast_getattr (v : pyval) (name : string) : fails_fast (getattr v name).
Proof. destruct v; cbn; try (now apply fails_fast_quiet). apply fails_fast_remote. Qed.

Lemma fails_fast_invoke (v : pyval) (meth : string) (args : list arg) :
  fails_fast (invoke v meth args).
Proof. destruct v; cbn; try (now apply fails_fast_quiet). apply fails_fast_remote. Qed.

Lemma fails_fast_bind {A B} (m : M A) (f : A -> M B) :
  fails_fast m -> (forall a, fails_fast (f a)) -> fails_fast (bind m f).
Proof.
  intros Hm Hf env c msg. unfold bind.
  specialize (Hm env c msg).
  destruct (m env) as [t1 [a|msg1]]; cbn [fst snd] in *.
  - specialize (Hf a env c msg). destruct (f a env) as [t2 r]; cbn [fst snd] in *.
    intros Hin. apply in_app_or in Hin as [Hin|Hin].
    + destruct (Hm Hin) as [Hr _]. discriminate Hr.
    + destruct (Hf Hin) as (Hr & pre & ->). split; [exact Hr|].
      exists (t1 ++ pre). now rewrite app_assoc.
  - intros Hin. destruct (Hm Hin) as (Hr & pre & Ht). injection Hr as ->. eauto.
Qed.

Lemma fails_fast_for_each {A} (xs : list A) (body : A -> M unit) :
  (forall x, fails_fast (body x)) -> fails_fast (for_each xs body).
Proof.
  intros H. induction xs as [|x xs IH]; cbn [for_each].
  - now apply fails_fast_quiet.
  - apply fails_fast_bind; auto.
Qed.

Lemma fails_fast_if {A} (b : bool) (m1 m2 : M A) :
  fails_fast m1 -> fails_fast m2 -> fails_fast (if b then m1 else m2).
Proof. now destruct b. Qed.

Lemma export_body_fails_fast (s : script) (i o : string) : fails_fast (export_body_of s i o).
Proof.
  destruct s; unfold_functions;
    repeat first
      [ apply fails_fast_bind; [|intro]
      | apply fails_fast_for_each; intro
      | apply fails_fast_if
      | apply fails_fast_getattr
      | apply fails_fast_invoke
      | apply fails_fast_quiet; intro; unfold py_range;
        try match goal with |- context [py_index ?v] => destruct (py_index v) end;
        reflexivity ].
Qed.

(** The scripts fail fast: a request the host answers by raising is the last
    request of the run, followed only by the error line that carries its
    text.  Nothing is retried, and nothing is cleaned up or closed after a
    failure. *)
Theorem failure_is_last (s : script) (env : Env) (input_file output_dir : string)
    (c : call) (msg : string) :
  In (EvCall c (Raise msg)) (fst (export_function s input_file output_dir env)) ->
  exists pre,
    fst (export_function s input_file output_dir env)
    = pre ++ [EvCall c (Raise msg); EvPrint Stderr ("Error: " ++ msg)%string].
Proof.
  intros Hin. apply failed_request_in_body in Hin.
  destruct (export_body_fails_fast s input_file output_dir env c msg Hin) as (Hr & pre & Ht).
  rewrite export_function_run.
  destruct (export_body_of s input_file output_dir env) as [t r]. cbn [fst snd] in *.
  subst r t. exists pre. cbn [fst]. now rewrite <- app_assoc.
Qed.

Lemma failure_is_last_witness :
  In (EvCall (Invoke (h_slide 1) "export"
                [AV (PStr "file:///srv/out/slide_002.png"); AV (PStr "png")])
             (Raise "export failed"))
     (fst (export_function ExportSlides "deck.pptx" "out"
             (office_env (with_broken_slide 3 1)))) /\
  exists pre,
    fst (export_function ExportSlides "deck.pptx" "out" (office_env (with_broken_slide 3 1)))
    = pre ++ [EvCall (Invoke (h_slide 1) "export"
                        [AV (PStr "file:///srv/out/slide_002.png"); AV (PStr "png")])
                     (Raise "export failed");
              EvPrint Stderr ("Error: " ++ "export failed")%string].
Proof.
  assert (H : In (EvCall (Invoke (h_slide 1) "export"
                            [AV (PStr "file:///srv/out/slide_002.png"); AV (PStr "png")])
                         (Raise "export failed"))
                (fst (export_function ExportSlides "deck.pptx" "out"
                        (office_env (with_broken_slide 3 1))))).
  { vm_compute. do 12 right. left. reflexivity. }
  split; [exact H|].
  exact (failure_is_last ExportSlides (office_env (with_broken_slide 3 1)) "deck.pptx" "out" _ _ H).
Defined.

(** ** The document handle *)

Ltac find_in_trace :=
  cbn [In]; repeat first [ left; reflexivity | right | apply in_or_app; right; cbn [In] ].

(** The function returns true exactly when a close request was answered
    normally.  So a run that fails after the load leaves the document open
    in the office process: either close was never requested, or it was
    refused. *)
Theorem closed_iff_success (s : script) (env : Env) (input_file output_dir : string) :
  (exists doc args r,
      In (EvCall (Invoke doc "close" args) (Ret r))
         (fst (export_function s input_file output_dir env))) <->
  snd (export_function s input_file output_dir env) = Ret true.
Proof.
  destruct (export_function s input_file output_dir env) as [t r] eqn:Hrun. cbn [fst snd].
  destruct s; run Hrun; leaf Hrun; loop_silence "close"%string.
  all: split;
    [ intros (doc & args & r & Hin); apply answered in Hin; read_answer Hin;
      first [ reflexivity | contradiction ]
    | intros Hok; first [ discriminate Hok | do 3 eexists; find_in_trace ] ].
Qed.
